(** * better-shot: the screenshot finishing pipeline

    A shallow embedding of [src/lib/forensic-metadata.ts] (the footer
    appender) and of the two revisions of [src/lib/auto-process.ts] (the
    orchestrator [processScreenshotWithDefaultBackground], without and with
    the forensic step), followed by the properties the specification states
    about them.

    The orchestrator is callback driven: it talks to the settings store, to
    two image decoders, to the compositor, to the PNG encoder and to a
    [FileReader].  Every such exchange is an [Event]; one invocation is the
    list of its events in program order, and the state of the returned
    promise is read off that list (the first settle call wins). *)

From Stdlib Require Import ZArith NArith QArith List String Ascii Bool Lia.
From Stdlib Require Import DecimalString.
Import ListNotations.

Local Open Scope Z_scope.

(* ================================================================== *)
(** ** JavaScript strings *)

Module Js.

(** A JavaScript string is a sequence of UTF-16 code units. *)
Definition jsstring := list N.

(** A source literal (ASCII only in these files). *)
Definition lit (s : string) : jsstring :=
  map N_of_ascii (list_ascii_of_string s).

(** The double quote, for literals that contain one. *)
Definition dquote : jsstring := [34%N].

Definition eqb (a b : jsstring) : bool :=
  if list_eq_dec N.eq_dec a b then true else false.

(** Truthiness of a string value: every string but the empty one. *)
Definition truthy (s : jsstring) : bool :=
  match s with [] => false | _ :: _ => true end.

(** [a || b] on strings. *)
Definition or_else (a b : jsstring) : jsstring :=
  if truthy a then a else b.

(** ECMAScript [WhiteSpace] and [LineTerminator] code points, the ones
    [String.prototype.trim] strips; all lie in the basic plane. *)
Definition isWhiteSpace (c : N) : bool :=
  ((9 <=? c) && (c <=? 13) || (c =? 32) || (c =? 160) || (c =? 5760)
   || (8192 <=? c) && (c <=? 8202) || (c =? 8232) || (c =? 8233)
   || (c =? 8239) || (c =? 8287) || (c =? 12288) || (c =? 65279))%N.

Fixpoint trimStart (s : jsstring) : jsstring :=
  match s with
  | c :: s' => if isWhiteSpace c then trimStart s' else s
  | [] => []
  end.

Definition trimEnd (s : jsstring) : jsstring := rev (trimStart (rev s)).

Definition trim (s : jsstring) : jsstring := trimEnd (trimStart s).

(** [String(n)] for an integer [n]. *)
Definition ofInt (n : Z) : jsstring :=
  lit (NilZero.string_of_int (Z.to_int n)).

(** [new Error(message)]; also stands for any thrown value. *)
Inductive Error := mkError (message : jsstring).

End Js.
Import Js.

(* ================================================================== *)
(** ** Canvases and the 2D context *)

Module Canvas2D.

(** A decoded [HTMLImageElement]. *)
Record Image := mkImage {
  img_src : jsstring;
  img_width : Z;
  img_height : Z
}.

(** What has been painted on a canvas, each entry with the context
    attributes that were in force when it was painted.  [Pixels] stands
    for whatever code outside these files (the compositor) has drawn. *)
Inductive Canvas := mkCanvas (width height : Z) (painted : list Paint)
with Paint :=
| DrawCanvas (source : Canvas) (dx dy : Z)
    (smoothing : bool) (smoothingQuality : jsstring)
| FillRect (x y w h : Z) (fillStyle : jsstring)
| Stroke (path : list (Q * Q)) (strokeStyle : jsstring) (lineWidth : Z)
| FillText (text : jsstring) (x y : Z)
    (fillStyle textBaseline font : jsstring)
| Pixels (data : list N).

Definition width (c : Canvas) : Z :=
  match c with mkCanvas w _ _ => w end.
Definition height (c : Canvas) : Z :=
  match c with mkCanvas _ h _ => h end.
Definition painted (c : Canvas) : list Paint :=
  match c with mkCanvas _ _ p => p end.

(** [document.createElement("canvas")] followed by the two assignments
    to [width] and [height].  Dimensions are mathematical integers:
    browsers bound a canvas far below the range of the attributes. *)
Definition createCanvas (w h : Z) : Canvas := mkCanvas w h [].

(** A [CanvasRenderingContext2D]: the canvas it paints on, its drawing
    attributes and the current path. *)
Record Context := mkContext {
  canvas : Canvas;
  imageSmoothingEnabled : bool;
  imageSmoothingQuality : jsstring;
  fillStyle : jsstring;
  strokeStyle : jsstring;
  lineWidth : Z;
  textBaseline : jsstring;
  font : jsstring;
  path : list (Q * Q)
}.

(** The attributes of a fresh context. *)
Definition newContext (c : Canvas) : Context :=
  {| canvas := c;
     imageSmoothingEnabled := true;
     imageSmoothingQuality := lit "low";
     fillStyle := lit "#000000";
     strokeStyle := lit "#000000";
     lineWidth := 1;
     textBaseline := lit "alphabetic";
     font := lit "10px sans-serif";
     path := [] |}.

Definition paint (p : Paint) (ctx : Context) : Context :=
  let c := canvas ctx in
  {| canvas := mkCanvas (width c) (height c) (painted c ++ [p]);
     imageSmoothingEnabled := imageSmoothingEnabled ctx;
     imageSmoothingQuality := imageSmoothingQuality ctx;
     fillStyle := fillStyle ctx;
     strokeStyle := strokeStyle ctx;
     lineWidth := lineWidth ctx;
     textBaseline := textBaseline ctx;
     font := font ctx;
     path := path ctx |}.

Definition set_imageSmoothingEnabled (b : bool) (ctx : Context) : Context :=
  {| canvas := canvas ctx;
     imageSmoothingEnabled := b;
     imageSmoothingQuality := imageSmoothingQuality ctx;
     fillStyle := fillStyle ctx;
     strokeStyle := strokeStyle ctx;
     lineWidth := lineWidth ctx;
     textBaseline := textBaseline ctx;
     font := font ctx;
     path := path ctx |}.

Definition set_imageSmoothingQuality (q : jsstring) (ctx : Context)
  : Context :=
  {| canvas := canvas ctx;
     imageSmoothingEnabled := imageSmoothingEnabled ctx;
     imageSmoothingQuality := q;
     fillStyle := fillStyle ctx;
     strokeStyle := strokeStyle ctx;
     lineWidth := lineWidth ctx;
     textBaseline := textBaseline ctx;
     font := font ctx;
     path := path ctx |}.

Definition set_fillStyle (s : jsstring) (ctx : Context) : Context :=
  {| canvas := canvas ctx;
     imageSmoothingEnabled := imageSmoothingEnabled ctx;
     imageSmoothingQuality := imageSmoothingQuality ctx;
     fillStyle := s;
     strokeStyle := strokeStyle ctx;
     lineWidth := lineWidth ctx;
     textBaseline := textBaseline ctx;
     font := font ctx;
     path := path ctx |}.

Definition set_strokeStyle (s : jsstring) (ctx : Context) : Context :=
  {| canvas := canvas ctx;
     imageSmoothingEnabled := imageSmoothingEnabled ctx;
     imageSmoothingQuality := imageSmoothingQuality ctx;
     fillStyle := fillStyle ctx;
     strokeStyle := s;
     lineWidth := lineWidth ctx;
     textBaseline := textBaseline ctx;
     font := font ctx;
     path := path ctx |}.

Definition set_lineWidth (n : Z) (ctx : Context) : Context :=
  {| canvas := canvas ctx;
     imageSmoothingEnabled := imageSmoothingEnabled ctx;
     imageSmoothingQuality := imageSmoothingQuality ctx;
     fillStyle := fillStyle ctx;
     strokeStyle := strokeStyle ctx;
     lineWidth := n;
     textBaseline := textBaseline ctx;
     font := font ctx;
     path := path ctx |}.

Definition set_textBaseline (s : jsstring) (ctx : Context) : Context :=
  {| canvas := canvas ctx;
     imageSmoothingEnabled := imageSmoothingEnabled ctx;
     imageSmoothingQuality := imageSmoothingQuality ctx;
     fillStyle := fillStyle ctx;
     strokeStyle := strokeStyle ctx;
     lineWidth := lineWidth ctx;
     textBaseline := s;
     font := font ctx;
     path := path ctx |}.

Definition set_font (s : jsstring) (ctx : Context) : Context :=
  {| canvas := canvas ctx;
     imageSmoothingEnabled := imageSmoothingEnabled ctx;
     imageSmoothingQuality := imageSmoothingQuality ctx;
     fillStyle := fillStyle ctx;
     strokeStyle := strokeStyle ctx;
     lineWidth := lineWidth ctx;
     textBaseline := textBaseline ctx;
     font := s;
     path := path ctx |}.

Definition set_path (p : list (Q * Q)) (ctx : Context) : Context :=
  {| canvas := canvas ctx;
     imageSmoothingEnabled := imageSmoothingEnabled ctx;
     imageSmoothingQuality := imageSmoothingQuality ctx;
     fillStyle := fillStyle ctx;
     strokeStyle := strokeStyle ctx;
     lineWidth := lineWidth ctx;
     textBaseline := textBaseline ctx;
     font := font ctx;
     path := p |}.

Definition drawImage (source : Canvas) (dx dy : Z) (ctx : Context)
  : Context :=
  paint (DrawCanvas source dx dy (imageSmoothingEnabled ctx)
           (imageSmoothingQuality ctx)) ctx.

Definition fillRect (x y w h : Z) (ctx : Context) : Context :=
  paint (FillRect x y w h (fillStyle ctx)) ctx.

Definition beginPath (ctx : Context) : Context := set_path [] ctx.

Definition moveTo (x y : Q) (ctx : Context) : Context :=
  set_path (path ctx ++ [(x, y)]) ctx.

Definition lineTo (x y : Q) (ctx : Context) : Context :=
  set_path (path ctx ++ [(x, y)]) ctx.

Definition stroke (ctx : Context) : Context :=
  paint (Stroke (path ctx) (strokeStyle ctx) (lineWidth ctx)) ctx.

Definition fillText (text : jsstring) (x y : Z) (ctx : Context) : Context :=
  paint (FillText text x y (fillStyle ctx) (textBaseline ctx) (font ctx))
    ctx.

(** The text entries of a canvas, in painting order. *)
Definition texts (c : Canvas) : list Paint :=
  filter (fun p => match p with FillText _ _ _ _ _ _ => true | _ => false end)
    (painted c).

End Canvas2D.
Import Canvas2D.

(** Statements of a handler in program order: [ctx |> f |> g]. *)
Notation "x |> f" := (f x) (at level 45, left associativity, only parsing).

(* ================================================================== *)
(** ** forensic-metadata.ts *)

Module ForensicMetadata.

Record ForensicMetadataOptions := mkOptions {
  timestampUtc : jsstring;
  userLabel : jsstring
}.

Definition FONT_FAMILY : jsstring :=
  lit "ui-monospace, SFMono-Regular, Menlo, Monaco, Consolas, "
  ++ dquote ++ lit "Liberation Mono" ++ dquote ++ lit ", "
  ++ dquote ++ lit "Courier New" ++ dquote ++ lit ", monospace".

Definition footerPaddingX : Z := 24.
Definition footerPaddingY : Z := 12.
Definition lineGap : Z := 4.
Definition fontSize : Z := 14.
Definition lineHeight : Z := 18.

Definition footerHeight : Z :=
  footerPaddingY * 2 + lineHeight * 2 + lineGap.

Definition contextError : Error :=
  mkError (lit "Failed to get canvas context for forensic metadata").

(** [appendForensicMetadata(sourceCanvas, { timestampUtc, userLabel })].
    [getContext] answers for [outputCanvas.getContext("2d", ...)]: it is
    [false] when the browser hands out [null]. *)
Definition appendForensicMetadata (getContext : Canvas -> bool)
    (sourceCanvas : Canvas) (opts : ForensicMetadataOptions)
  : Error + Canvas :=
  let outputCanvas :=
    createCanvas (width sourceCanvas) (height sourceCanvas + footerHeight) in
  if negb (getContext outputCanvas) then inl contextError
  else
    let startX := footerPaddingX in
    let startY := height sourceCanvas + footerPaddingY in
    let ctx :=
      newContext outputCanvas
      |> set_imageSmoothingEnabled true
      |> set_imageSmoothingQuality (lit "high")
      (* Draw the original image *)
      |> drawImage sourceCanvas 0 0
      (* Footer background *)
      |> set_fillStyle (lit "#f8fafc")
      |> fillRect 0 (height sourceCanvas) (width outputCanvas) footerHeight
      (* Separator line *)
      |> set_strokeStyle (lit "#e2e8f0")
      |> set_lineWidth 1
      |> beginPath
      |> moveTo 0 (inject_Z (height sourceCanvas) + (1 # 2))%Q
      |> lineTo (inject_Z (width outputCanvas))
           (inject_Z (height sourceCanvas) + (1 # 2))%Q
      |> stroke
      (* Text *)
      |> set_fillStyle (lit "#0f172a")
      |> set_textBaseline (lit "top")
      |> set_font (ofInt fontSize ++ lit "px " ++ FONT_FAMILY)
      |> fillText (lit "UTC: " ++ timestampUtc opts) startX startY
      |> fillText (lit "User: " ++ userLabel opts) startX
           (startY + lineHeight + lineGap)
    in
    inr (canvas ctx).

End ForensicMetadata.
Import ForensicMetadata.

(* ================================================================== *)
(** ** What the orchestrator imports and what the browser answers *)

Inductive BackgroundType :=
| transparent | white | black | gray | custom | image | gradient.

Definition isImageOrGradient (t : BackgroundType) : bool :=
  match t with image | gradient => true | _ => false end.

Definition isTransparentType (t : BackgroundType) : bool :=
  match t with transparent => true | _ => false end.

Definition isGradientType (t : BackgroundType) : bool :=
  match t with gradient => true | _ => false end.

(** [./canvas-utils]: the argument of [createHighQualityCanvas]. *)
Module CanvasUtils.

Record Shadow := mkShadow {
  blur : Z;
  offsetX : Z;
  offsetY : Z;
  opacity : Z
}.

Record CanvasOptions := mkCanvasOptions {
  image : Image;
  backgroundType : BackgroundType;
  customColor : jsstring;
  selectedImage : option jsstring;
  bgImage : option Image;
  blurAmount : Z;
  noiseAmount : Z;
  borderRadius : Z;
  padding : Z;
  gradientImage : option Image;
  shadow : Shadow
}.

(** The compositor itself is not part of these files; it may throw. *)
Class Compositor := {
  createHighQualityCanvas : CanvasOptions -> Error + Canvas
}.

End CanvasUtils.
Export CanvasUtils (Shadow, mkShadow, CanvasOptions, mkCanvasOptions,
  Compositor, createHighQualityCanvas).

(** [./asset-registry], as far as the orchestrator calls it; both calls
    are taken to return. *)
Class AssetRegistry := {
  getDefaultBackgroundPath : jsstring;
  resolveBackgroundPath : jsstring -> jsstring
}.

(** The contents of [settings.json], at the types the [store.get<T>] calls
    declare; [None] is a missing key ([null] or [undefined]). *)
Record Store := mkStore {
  defaultBackgroundType : option BackgroundType;
  defaultCustomColor : option jsstring;
  defaultBackgroundImage : option jsstring;
  forensicMetadataEnabled : option bool;
  storedForensicTeam : option jsstring;
  storedForensicUser : option jsstring
}.

Record Blob := mkBlob {
  blob_type : jsstring;
  blob_bytes : list N
}.

(** [@tauri-apps/api/core], [@tauri-apps/plugin-store] and the browser:
    what each call of one invocation answers.
    - [loadStore]: [Store.load(file)] and the [get] calls after it; [inl]
      when any of them throws (the assignments all come after the last
      [get], so a throw leaves every variable at its initial value);
    - [decode]: assigning [src] on an [Image] starts a decode that ends in
      [onload] ([Some]) or [onerror] ([None]);
    - [getContext]: whether [getContext("2d")] hands out a context;
    - [encode]: the bytes [toBlob] produces, [None] when the callback
      receives [null] ([toBlob] itself is taken not to throw: both images
      are loaded with [crossOrigin = "anonymous"]);
    - [readFails]: whether the [FileReader] ends in [error];
    - [base64]: the encoding [readAsDataURL] applies;
    - [now]: [new Date().toISOString()]. *)
Class Host := {
  convertFileSrc : jsstring -> jsstring;
  loadStore : jsstring -> Error + Store;
  decode : jsstring -> option Image;
  getContext : Canvas -> bool;
  encode : Canvas -> jsstring -> Q -> option (list N);
  readFails : Blob -> bool;
  base64 : list N -> jsstring;
  now : jsstring
}.

(** [canvas.toBlob(callback, type, quality)]: the blob handed to the
    callback. *)
Definition toBlob `{Host} (c : Canvas) (type : jsstring) (quality : Q)
  : option Blob :=
  match encode c type quality with
  | Some bytes => Some (mkBlob type bytes)
  | None => None
  end.

(** [reader.result] after a successful [readAsDataURL(blob)]. *)
Definition dataURL `{Host} (b : Blob) : jsstring :=
  lit "data:" ++ blob_type b ++ lit ";base64," ++ base64 (blob_bytes b).

(* ================================================================== *)
(** ** Events of one invocation and the promise they settle *)

Inductive Element := SourceImg | BackgroundImg.

Inductive Event :=
| ConsoleError (message : jsstring) (err : Error)
| SetSrc (el : Element) (url : jsstring)
| OnLoad (el : Element)
| OnError (el : Element)
| CreateHighQualityCanvas (opts : CanvasOptions)
| ToBlob (c : Canvas) (type : jsstring) (quality : Q)
| ReadAsDataURL (blob : Blob)
| ReaderError
| ReaderLoadEnd
| Resolve (value : option jsstring)
| Reject (reason : Error).

Definition Trace := list Event.

Inductive PromiseState :=
| Pending
| Fulfilled (value : option jsstring)
| Rejected (reason : Error).

(** A promise keeps its first settlement; later [resolve] and [reject]
    calls do nothing. *)
Fixpoint settled (tr : Trace) : PromiseState :=
  match tr with
  | [] => Pending
  | Resolve v :: _ => Fulfilled v
  | Reject e :: _ => Rejected e
  | _ :: tr' => settled tr'
  end.

(** The [toBlob] call with its callback, the same text four times in the
    sources.  A [FileReader] that fails fires [error] and then [loadend],
    so [onerror] rejects before [onloadend] resolves with a [null]
    result. *)
Definition toBlobAndSettle `{Host} (outputCanvas : Canvas) : Trace :=
  ToBlob outputCanvas (lit "image/png") 1 ::
  match toBlob outputCanvas (lit "image/png") 1 with
  | Some blob =>
      ReadAsDataURL blob ::
      if readFails blob then
        [ReaderError; Reject (mkError (lit "Failed to read processed image"));
         ReaderLoadEnd; Resolve None]
      else
        [ReaderLoadEnd; Resolve (Some (dataURL blob))]
  | None => [Reject (mkError (lit "Failed to create blob from canvas"))]
  end.

(** The two literal argument blocks the orchestrator passes on. *)
Definition defaultShadow : Shadow :=
  {| CanvasUtils.blur := 33; CanvasUtils.offsetX := 18;
     CanvasUtils.offsetY := 23; CanvasUtils.opacity := 39 |}.

Definition noShadow : Shadow :=
  {| CanvasUtils.blur := 0; CanvasUtils.offsetX := 0;
     CanvasUtils.offsetY := 0; CanvasUtils.opacity := 0 |}.

(* ================================================================== *)
(** ** auto-process.ts, the revision without the forensic step *)

Module AutoProcessV1.
Section Orchestrator.
Context {W : Host} {R : AssetRegistry} {C : Compositor}.

(** The [let] variables of the promise executor. *)
Record Settings := mkSettings {
  backgroundType : BackgroundType;
  customColor : jsstring;
  defaultBgImage : jsstring
}.

Definition initialSettings : Settings :=
  {| backgroundType := image;
     customColor := lit "#667eea";
     defaultBgImage := getDefaultBackgroundPath |}.

(** The assignments inside the [try], once every [get] has answered. *)
Definition readStore (store : Store) : Settings :=
  let backgroundType :=
    match defaultBackgroundType store with
    | Some storedBgType => storedBgType
    | None => backgroundType initialSettings
    end in
  let customColor :=
    match defaultCustomColor store with
    | Some storedCustomColor =>
        if truthy storedCustomColor then storedCustomColor
        else customColor initialSettings
    | None => customColor initialSettings
    end in
  let defaultBgImage :=
    match defaultBackgroundImage store with
    | Some storedDefaultBg =>
        if truthy storedDefaultBg && isImageOrGradient backgroundType
        then resolveBackgroundPath storedDefaultBg
        else defaultBgImage initialSettings
    | None => defaultBgImage initialSettings
    end in
  {| backgroundType := backgroundType;
     customColor := customColor;
     defaultBgImage := defaultBgImage |}.

(** The [try]/[catch] around the store: the settings in force afterwards
    and what was logged. *)
Definition loadSettings : Settings * Trace :=
  match loadStore (lit "settings.json") with
  | inr store => (readStore store, [])
  | inl err =>
      (initialSettings,
       [ConsoleError
          (lit "Failed to load default background from settings:") err])
  end.

Definition imageOptions (s : Settings) (img bgImage : Image)
  : CanvasOptions :=
  let isGradient := isGradientType (backgroundType s) in
  {| CanvasUtils.image := img;
     CanvasUtils.backgroundType := backgroundType s;
     CanvasUtils.customColor := customColor s;
     CanvasUtils.selectedImage :=
       if isGradient then None else Some (defaultBgImage s);
     CanvasUtils.bgImage := if isGradient then None else Some bgImage;
     CanvasUtils.blurAmount := 0;
     CanvasUtils.noiseAmount := 20;
     CanvasUtils.borderRadius := 18;
     CanvasUtils.padding := 100;
     CanvasUtils.gradientImage := if isGradient then Some bgImage else None;
     CanvasUtils.shadow := defaultShadow |}.

Definition plainOptions (s : Settings) (img : Image) : CanvasOptions :=
  let isTransparent := isTransparentType (backgroundType s) in
  {| CanvasUtils.image := img;
     CanvasUtils.backgroundType := backgroundType s;
     CanvasUtils.customColor := customColor s;
     CanvasUtils.selectedImage := None;
     CanvasUtils.bgImage := None;
     CanvasUtils.gradientImage := None;
     CanvasUtils.blurAmount := 0;
     CanvasUtils.noiseAmount := 20;
     CanvasUtils.borderRadius := 18;
     CanvasUtils.padding := if isTransparent then 0 else 100;
     CanvasUtils.shadow :=
       if isTransparent then noShadow else defaultShadow |}.

(** The body of either inner [try]: compose, encode, settle. *)
Definition compose (opts : CanvasOptions) : Trace :=
  CreateHighQualityCanvas opts ::
  match createHighQualityCanvas opts with
  | inr canvas => toBlobAndSettle canvas
  | inl err => [Reject err]
  end.

Definition bgImage_onload (s : Settings) (img bgImage : Image) : Trace :=
  compose (imageOptions s img bgImage).

Definition bgImage_onerror : Trace :=
  [Reject (mkError (lit "Failed to load background image"))].

Definition img_onload (s : Settings) (img : Image) : Trace :=
  if isImageOrGradient (backgroundType s) then
    SetSrc BackgroundImg (defaultBgImage s) ::
    match decode (defaultBgImage s) with
    | Some bgImage => OnLoad BackgroundImg :: bgImage_onload s img bgImage
    | None => OnError BackgroundImg :: bgImage_onerror
    end
  else compose (plainOptions s img).

Definition img_onerror (imagePath : jsstring) : Trace :=
  [Reject (mkError (lit "Failed to load image from: " ++ imagePath))].

Definition processScreenshotWithDefaultBackground (imagePath : jsstring)
  : Trace :=
  let (s, logged) := loadSettings in
  let assetUrl := convertFileSrc imagePath in
  logged ++
  SetSrc SourceImg assetUrl ::
  match decode assetUrl with
  | Some img => OnLoad SourceImg :: img_onload s img
  | None => OnError SourceImg :: img_onerror imagePath
  end.

End Orchestrator.
End AutoProcessV1.

(* ================================================================== *)
(** ** auto-process.ts, the revision with the forensic step *)

Module AutoProcess.
Section Orchestrator.
Context {W : Host} {R : AssetRegistry} {C : Compositor}.

Record AutoProcessOptions := mkAutoProcessOptions {
  timestampUtc : option jsstring
}.

(** The [let] variables of the promise executor. *)
Record Settings := mkSettings {
  backgroundType : BackgroundType;
  customColor : jsstring;
  defaultBgImage : jsstring;
  forensicEnabled : bool;
  forensicTeam : jsstring;
  forensicUser : jsstring
}.

Definition initialSettings : Settings :=
  {| backgroundType := image;
     customColor := lit "#667eea";
     defaultBgImage := getDefaultBackgroundPath;
     forensicEnabled := false;
     forensicTeam := lit "";
     forensicUser := lit "" |}.

(** The assignments inside the [try], once every [get] has answered. *)
Definition readStore (store : Store) : Settings :=
  let backgroundType :=
    match defaultBackgroundType store with
    | Some storedBgType => storedBgType
    | None => backgroundType initialSettings
    end in
  let customColor :=
    match defaultCustomColor store with
    | Some storedCustomColor =>
        if truthy storedCustomColor then storedCustomColor
        else customColor initialSettings
    | None => customColor initialSettings
    end in
  let defaultBgImage :=
    match defaultBackgroundImage store with
    | Some storedDefaultBg =>
        if truthy storedDefaultBg && isImageOrGradient backgroundType
        then resolveBackgroundPath storedDefaultBg
        else defaultBgImage initialSettings
    | None => defaultBgImage initialSettings
    end in
  let forensicEnabled :=
    match forensicMetadataEnabled store with
    | Some storedForensicEnabled => storedForensicEnabled
    | None => forensicEnabled initialSettings
    end in
  let forensicTeam :=
    match storedForensicTeam store with
    | Some team => if truthy team then team else forensicTeam initialSettings
    | None => forensicTeam initialSettings
    end in
  let forensicUser :=
    match storedForensicUser store with
    | Some user => if truthy user then user else forensicUser initialSettings
    | None => forensicUser initialSettings
    end in
  {| backgroundType := backgroundType;
     customColor := customColor;
     defaultBgImage := defaultBgImage;
     forensicEnabled := forensicEnabled;
     forensicTeam := forensicTeam;
     forensicUser := forensicUser |}.

Definition loadSettings : Settings * Trace :=
  match loadStore (lit "settings.json") with
  | inr store => (readStore store, [])
  | inl err =>
      (initialSettings,
       [ConsoleError
          (lit "Failed to load default background from settings:") err])
  end.

Definition buildUserLabel (team user : jsstring) : jsstring :=
  let safeTeam := or_else (trim team) (lit "unknown") in
  let safeUser := or_else (trim user) (lit "unknown") in
  safeTeam ++ lit "/" ++ safeUser.

Definition applyForensicMetadata (s : Settings)
    (options : AutoProcessOptions) (canvas : Canvas) : Error + Canvas :=
  if negb (forensicEnabled s) then inr canvas
  else
    let timestampUtc :=
      match timestampUtc options with
      | Some t => t
      | None => now
      end in
    appendForensicMetadata getContext canvas
      {| ForensicMetadata.timestampUtc := timestampUtc;
         ForensicMetadata.userLabel :=
           buildUserLabel (forensicTeam s) (forensicUser s) |}.

Definition imageOptions (s : Settings) (img bgImage : Image)
  : CanvasOptions :=
  let isGradient := isGradientType (backgroundType s) in
  {| CanvasUtils.image := img;
     CanvasUtils.backgroundType := backgroundType s;
     CanvasUtils.customColor := customColor s;
     CanvasUtils.selectedImage :=
       if isGradient then None else Some (defaultBgImage s);
     CanvasUtils.bgImage := if isGradient then None else Some bgImage;
     CanvasUtils.blurAmount := 0;
     CanvasUtils.noiseAmount := 20;
     CanvasUtils.borderRadius := 18;
     CanvasUtils.padding := 100;
     CanvasUtils.gradientImage := if isGradient then Some bgImage else None;
     CanvasUtils.shadow := defaultShadow |}.

Definition plainOptions (s : Settings) (img : Image) : CanvasOptions :=
  let isTransparent := isTransparentType (backgroundType s) in
  {| CanvasUtils.image := img;
     CanvasUtils.backgroundType := backgroundType s;
     CanvasUtils.customColor := customColor s;
     CanvasUtils.selectedImage := None;
     CanvasUtils.bgImage := None;
     CanvasUtils.gradientImage := None;
     CanvasUtils.blurAmount := 0;
     CanvasUtils.noiseAmount := 20;
     CanvasUtils.borderRadius := 18;
     CanvasUtils.padding := if isTransparent then 0 else 100;
     CanvasUtils.shadow :=
       if isTransparent then noShadow else defaultShadow |}.

(** The body of either inner [try]: compose, stamp, encode, settle. *)
Definition compose (s : Settings) (options : AutoProcessOptions)
    (opts : CanvasOptions) : Trace :=
  CreateHighQualityCanvas opts ::
  match createHighQualityCanvas opts with
  | inr canvas =>
      match applyForensicMetadata s options canvas with
      | inr outputCanvas => toBlobAndSettle outputCanvas
      | inl err => [Reject err]
      end
  | inl err => [Reject err]
  end.

Definition bgImage_onload (s : Settings) (options : AutoProcessOptions)
    (img bgImage : Image) : Trace :=
  compose s options (imageOptions s img bgImage).

Definition bgImage_onerror : Trace :=
  [Reject (mkError (lit "Failed to load background image"))].

Definition img_onload (s : Settings) (options : AutoProcessOptions)
    (img : Image) : Trace :=
  if isImageOrGradient (backgroundType s) then
    SetSrc BackgroundImg (defaultBgImage s) ::
    match decode (defaultBgImage s) with
    | Some bgImage =>
        OnLoad BackgroundImg :: bgImage_onload s options img bgImage
    | None => OnError BackgroundImg :: bgImage_onerror
    end
  else compose s options (plainOptions s img).

Definition img_onerror (imagePath : jsstring) : Trace :=
  [Reject (mkError (lit "Failed to load image from: " ++ imagePath))].

Definition processScreenshotWithDefaultBackground (imagePath : jsstring)
    (options : AutoProcessOptions) : Trace :=
  let (s, logged) := loadSettings in
  let assetUrl := convertFileSrc imagePath in
  logged ++
  SetSrc SourceImg assetUrl ::
  match decode assetUrl with
  | Some img => OnLoad SourceImg :: img_onload s options img
  | None => OnError SourceImg :: img_onerror imagePath
  end.

End Orchestrator.
End AutoProcess.

(* ================================================================== *)
(** ** The asset registry as the specification describes it *)

(** Modelled from the spec: [resolveBackgroundPath] and
    [getDefaultBackgroundPath] of [src/lib/asset-registry.ts], which is not
    among the sources (only its callers are).  The specification says a
    reference resolves through the asset registry to a loadable location,
    and that a stale or unresolvable reference falls back to the built-in
    default background reference before any decode is attempted.
    [lookup] is the registry's table, [builtin] the built-in default. *)
Definition specAssetRegistry (lookup : jsstring -> option jsstring)
    (builtin : jsstring) : AssetRegistry :=
  {| getDefaultBackgroundPath := builtin;
     resolveBackgroundPath := fun reference =>
       match lookup reference with
       | Some location => location
       | None => builtin
       end |}.

(* ================================================================== *)
(** ** The footer text as the specification words it *)

(** A label component is blank when nothing is left of it after trimming. *)
Definition blank (s : jsstring) : bool := negb (truthy (trim s)).

(** The second footer line read literally: the team and the user as they
    are configured, each replaced by ["unknown"] when blank. *)
Definition claimedUserLine (team user : jsstring) : jsstring :=
  lit "User: "
  ++ (if blank team then lit "unknown" else team)
  ++ lit "/"
  ++ (if blank user then lit "unknown" else user).

(** The label component the code renders: the trimmed value, or
    ["unknown"] when the trimmed value is empty. *)
Definition renderedComponent (s : jsstring) : jsstring :=
  if blank s then lit "unknown" else trim s.

(** The font the footer text is set in. *)
Definition footerFont : jsstring :=
  ofInt fontSize ++ lit "px " ++ FONT_FAMILY.

(** The two footer lines for a composite of height [h], given the second
    line's text. *)
Definition footerLines (h : Z) (timestamp userLine : jsstring) : list Paint :=
  [FillText (lit "UTC: " ++ timestamp) 24 (h + 12)
     (lit "#0f172a") (lit "top") footerFont;
   FillText userLine 24 (h + 12 + 22)
     (lit "#0f172a") (lit "top") footerFont].

(* ================================================================== *)
(** ** Reading traces *)

Definition isSetSrc (el : Element) (e : Event) : bool :=
  match e, el with
  | SetSrc SourceImg _, SourceImg => true
  | SetSrc BackgroundImg _, BackgroundImg => true
  | _, _ => false
  end.

Definition isCompose (e : Event) : bool :=
  match e with CreateHighQualityCanvas _ => true | _ => false end.

Definition isToBlob (e : Event) : bool :=
  match e with ToBlob _ _ _ => true | _ => false end.

Definition isRead (e : Event) : bool :=
  match e with ReadAsDataURL _ => true | _ => false end.

Definition isConsole (e : Event) : bool :=
  match e with ConsoleError _ _ => true | _ => false end.

(** How often a stage was started in a trace. *)
Definition attempts (stage : Event -> bool) (tr : Trace) : nat :=
  List.length (filter stage tr).

(** Every [later] event of a trace has a [first] event somewhere before
    it. *)
Fixpoint orderedAfter (first later : Event -> bool) (tr : Trace) : bool :=
  match tr with
  | [] => true
  | e :: tr' =>
      if later e then false
      else if first e then true
      else orderedAfter first later tr'
  end.

Definition isSourceLoaded (e : Event) : bool :=
  match e with OnLoad SourceImg => true | _ => false end.

(** The numeric composition parameters of a compositor call. *)
Definition compositionParameters (o : CanvasOptions)
  : Z * Z * Z * Z * Shadow :=
  (CanvasUtils.padding o, CanvasUtils.borderRadius o,
   CanvasUtils.noiseAmount o, CanvasUtils.blurAmount o,
   CanvasUtils.shadow o).

(* ================================================================== *)
(** ** A test bench *)

(** One concrete host, registry and compositor on which the statements
    below are exercised.  The compositor stand-in only sizes its surface
    (source plus padding on every side); the encoder stand-in writes the
    two dimensions. *)
Module Bench.

Definition shot : Image := mkImage (lit "asset://shot.png") 800 600.
Definition wallpaper : Image := mkImage (lit "/bg/default.jpg") 1920 1080.

Definition host (store : Error + Store) (failingRead : bool) : Host :=
  {| convertFileSrc := fun p => lit "asset://" ++ p;
     loadStore := fun _ => store;
     decode := fun url =>
       if Js.eqb url (lit "asset://shot.png") then Some shot
       else if Js.eqb url (lit "/bg/default.jpg") then Some wallpaper
       else None;
     getContext := fun _ => true;
     encode := fun c _ _ =>
       if (0 <? width c) && (0 <? height c)
       then Some [Z.to_N (width c); Z.to_N (height c)] else None;
     readFails := fun _ => failingRead;
     base64 := fun bytes => bytes;
     now := lit "2024-01-01T00:00:00Z" |}.

Definition registry : AssetRegistry :=
  {| getDefaultBackgroundPath := lit "/bg/default.jpg";
     resolveBackgroundPath := fun r =>
       if Js.eqb r (lit "mesh-1") then lit "/bg/mesh-1.jpg" else r |}.

(** The registry's table, for the registry of the specification. *)
Definition lookup (r : jsstring) : option jsstring :=
  if Js.eqb r (lit "mesh-1") then Some (lit "/bg/mesh-1.jpg") else None.

Definition compositor : Compositor :=
  {| createHighQualityCanvas := fun o =>
       inr (mkCanvas
              (img_width (CanvasUtils.image o) + 2 * CanvasUtils.padding o)
              (img_height (CanvasUtils.image o) + 2 * CanvasUtils.padding o)
              [Pixels []]) |}.

Definition storeWith (t : BackgroundType) (bg : option jsstring)
    (forensic : bool) (team user : jsstring) : Store :=
  {| defaultBackgroundType := Some t;
     defaultCustomColor := Some (lit "#667eea");
     defaultBackgroundImage := bg;
     forensicMetadataEnabled := Some forensic;
     storedForensicTeam := Some team;
     storedForensicUser := Some user |}.

Definition options : AutoProcess.AutoProcessOptions :=
  {| AutoProcess.timestampUtc := Some (lit "2024-01-01T00:00:00Z") |}.

Definition composite : Canvas := mkCanvas 1000 800 [Pixels []].

End Bench.

(* ================================================================== *)
(** ** Further readings of hosts, stores and traces *)

(** The same host with another answer of the settings store. *)
Definition withStore (W : Host) (answer : Error + Store) : Host :=
  {| convertFileSrc := @convertFileSrc W;
     loadStore := fun _ => answer;
     decode := @decode W;
     getContext := @getContext W;
     encode := @encode W;
     readFails := @readFails W;
     base64 := @base64 W;
     now := @now W |}.

(** The same host at another time of day. *)
Definition withClock (W : Host) (time : jsstring) : Host :=
  {| convertFileSrc := @convertFileSrc W;
     loadStore := @loadStore W;
     decode := @decode W;
     getContext := @getContext W;
     encode := @encode W;
     readFails := @readFails W;
     base64 := @base64 W;
     now := time |}.

(** A [settings.json] without any of the keys. *)
Definition emptyStore : Store := mkStore None None None None None None.

(** A store with another value under [defaultBackgroundImage]. *)
Definition withBackgroundImage (store : Store) (reference : option jsstring)
  : Store :=
  mkStore (defaultBackgroundType store) (defaultCustomColor store) reference
    (forensicMetadataEnabled store) (storedForensicTeam store)
    (storedForensicUser store).

Definition allWhiteSpace (s : jsstring) : bool := forallb isWhiteSpace s.

Definition isOnError (e : Event) : bool :=
  match e with OnError _ => true | _ => false end.

(** The events up to and including the compositor call: logging, the two
    decodes and the call itself. *)
Definition isUpToCompose (e : Event) : bool :=
  match e with
  | ConsoleError _ _ | SetSrc _ _ | OnLoad _ | OnError _
  | CreateHighQualityCanvas _ => true
  | _ => false
  end.

(** [s.startsWith(prefix)]. *)
Fixpoint startsWith (prefix s : jsstring) : bool :=
  match prefix, s with
  | [], _ => true
  | _ :: _, [] => false
  | p :: prefix', c :: s' => (p =? c)%N && startsWith prefix' s'
  end.

(** [s.replace(pattern, replacement)] for a string pattern and a
    replacement without [$]: the first occurrence only. *)
Fixpoint replaceFirst (pattern replacement s : jsstring) : jsstring :=
  if startsWith pattern s then replacement ++ skipn (List.length pattern) s
  else
    match s with
    | [] => []
    | c :: s' => c :: replaceFirst pattern replacement s'
    end.

(** A store in which every string key holding the empty string is
    missing instead. *)
Definition dropEmptyStrings (store : Store) : Store :=
  let drop (v : option jsstring) :=
    match v with
    | Some s => if truthy s then Some s else None
    | None => None
    end in
  mkStore (defaultBackgroundType store) (drop (defaultCustomColor store))
    (drop (defaultBackgroundImage store)) (forensicMetadataEnabled store)
    (drop (storedForensicTeam store)) (drop (storedForensicUser store)).

(** The promise executor together with its two calls that sit outside
    every [try]: [getDefaultBackgroundPath()], the first call of all, and
    [convertFileSrc(imagePath)], the last one before [img.src] is
    assigned.  [defaultPathThrows] and [convertThrows] tell whether the
    call throws.  The executor is an [async] function, so a throw rejects
    the promise that function returns, which nobody holds: nothing further
    runs, and neither [resolve] nor [reject] of the promise handed to the
    caller is called.  A throw of the first call comes before the settings
    block, a throw of the second after it and after both handlers are
    installed. *)
Definition executor {W : Host} {R : AssetRegistry} {C : Compositor}
    (defaultPathThrows convertThrows : bool) (imagePath : jsstring)
    (options : AutoProcess.AutoProcessOptions) : Trace :=
  if defaultPathThrows then []
  else if convertThrows then snd AutoProcess.loadSettings
  else AutoProcess.processScreenshotWithDefaultBackground imagePath options.

(** The same for the revision without the forensic step. *)
Definition executorV1 {W : Host} {R : AssetRegistry} {C : Compositor}
    (defaultPathThrows convertThrows : bool) (imagePath : jsstring)
  : Trace :=
  if defaultPathThrows then []
  else if convertThrows then snd AutoProcessV1.loadSettings
  else AutoProcessV1.processScreenshotWithDefaultBackground imagePath.

(* ================================================================== *)
(** ** settings.json as the preference components write it *)

Module SettingsJson.

(** Every key the preference components and the orchestrator use, at the
    types of their [get<T>] and [set] calls; [None] is a missing key or a
    stored [null].  An uploaded image is [None] where [reader.result] was
    [null] when it was stored. *)
Record SettingsFile := mkSettingsFile {
  saveDir : option jsstring;
  copyToClipboard : option bool;
  forensicMetadataEnabled : option bool;
  forensicTeam : option jsstring;
  forensicUser : option jsstring;
  defaultBackgroundType : option BackgroundType;
  defaultCustomColor : option jsstring;
  defaultBackgroundImage : option jsstring;
  uploadedBackgroundImages : option (list (option jsstring))
}.

Definition emptyFile : SettingsFile :=
  mkSettingsFile None None None None None None None None None.

(** What the orchestrator's six [get] calls answer on this file. *)
Definition orchestratorView (f : SettingsFile) : Store :=
  mkStore (defaultBackgroundType f) (defaultCustomColor f)
    (defaultBackgroundImage f) (forensicMetadataEnabled f)
    (forensicTeam f) (forensicUser f).

(** [store.set(key, value)], one constructor per key and value type. *)
Inductive Assignment :=
| SetSaveDir (value : jsstring)
| SetCopyToClipboard (value : bool)
| SetForensicMetadataEnabled (value : bool)
| SetForensicTeam (value : jsstring)
| SetForensicUser (value : jsstring)
| SetDefaultBackgroundType (value : BackgroundType)
| SetDefaultCustomColor (value : jsstring)
| SetDefaultBackgroundImage (value : option jsstring)
| SetUploadedBackgroundImages (value : list (option jsstring)).

Definition assign (a : Assignment) (f : SettingsFile) : SettingsFile :=
  match a with
  | SetSaveDir v =>
      mkSettingsFile (Some v) (copyToClipboard f) (forensicMetadataEnabled f)
        (forensicTeam f) (forensicUser f) (defaultBackgroundType f)
        (defaultCustomColor f) (defaultBackgroundImage f)
        (uploadedBackgroundImages f)
  | SetCopyToClipboard v =>
      mkSettingsFile (saveDir f) (Some v) (forensicMetadataEnabled f)
        (forensicTeam f) (forensicUser f) (defaultBackgroundType f)
        (defaultCustomColor f) (defaultBackgroundImage f)
        (uploadedBackgroundImages f)
  | SetForensicMetadataEnabled v =>
      mkSettingsFile (saveDir f) (copyToClipboard f) (Some v)
        (forensicTeam f) (forensicUser f) (defaultBackgroundType f)
        (defaultCustomColor f) (defaultBackgroundImage f)
        (uploadedBackgroundImages f)
  | SetForensicTeam v =>
      mkSettingsFile (saveDir f) (copyToClipboard f)
        (forensicMetadataEnabled f) (Some v) (forensicUser f)
        (defaultBackgroundType f) (defaultCustomColor f)
        (defaultBackgroundImage f) (uploadedBackgroundImages f)
  | SetForensicUser v =>
      mkSettingsFile (saveDir f) (copyToClipboard f)
        (forensicMetadataEnabled f) (forensicTeam f) (Some v)
        (defaultBackgroundType f) (defaultCustomColor f)
        (defaultBackgroundImage f) (uploadedBackgroundImages f)
  | SetDefaultBackgroundType v =>
      mkSettingsFile (saveDir f) (copyToClipboard f)
        (forensicMetadataEnabled f) (forensicTeam f) (forensicUser f)
        (Some v) (defaultCustomColor f) (defaultBackgroundImage f)
        (uploadedBackgroundImages f)
  | SetDefaultCustomColor v =>
      mkSettingsFile (saveDir f) (copyToClipboard f)
        (forensicMetadataEnabled f) (forensicTeam f) (forensicUser f)
        (defaultBackgroundType f) (Some v) (defaultBackgroundImage f)
        (uploadedBackgroundImages f)
  | SetDefaultBackgroundImage v =>
      mkSettingsFile (saveDir f) (copyToClipboard f)
        (forensicMetadataEnabled f) (forensicTeam f) (forensicUser f)
        (defaultBackgroundType f) (defaultCustomColor f) v
        (uploadedBackgroundImages f)
  | SetUploadedBackgroundImages v =>
      mkSettingsFile (saveDir f) (copyToClipboard f)
        (forensicMetadataEnabled f) (forensicTeam f) (forensicUser f)
        (defaultBackgroundType f) (defaultCustomColor f)
        (defaultBackgroundImage f) (Some v)
  end.

(** The store calls of a handler's [try] block. *)
Inductive StoreCall :=
| CallLoad
| CallSet (a : Assignment)
| CallSave.

(** The file is what [get] answers: [set] changes it at once, [load] and
    [save] leave it as it is. *)
Definition perform (c : StoreCall) (f : SettingsFile) : SettingsFile :=
  match c with
  | CallSet a => assign a f
  | CallLoad | CallSave => f
  end.

(** Which call of a handler throws, and what: [faults n] is for the call
    number [n] of the [try] block, counted from 0. *)
Definition Faults := nat -> option Error.

Definition noFaults : Faults := fun _ => None.

(** The calls of a [try] block in order, up to the first that throws. *)
Fixpoint runCalls (faults : Faults) (n : nat) (calls : list StoreCall)
    (f : SettingsFile) : SettingsFile * option Error :=
  match calls with
  | [] => (f, None)
  | c :: rest =>
      match faults n with
      | Some thrown => (f, Some thrown)
      | None => runCalls faults (S n) rest (perform c f)
      end
  end.

(** The second argument of a [console.error] call. *)
Inductive ConsoleArg :=
| Thrown (err : Error)
| Text (s : jsstring).

(** What a preference component does besides changing its state and the
    store. *)
Inductive UiEvent :=
| Console (message : jsstring) (arg : ConsoleArg)
| ToastSuccess (message : jsstring)
| ToastError (message : jsstring)
| OnImageSelect (imageSrc : jsstring)
| OnSettingsChange
| ResetFileInput.

End SettingsJson.
Import SettingsJson (SettingsFile, Faults, UiEvent).

(* ================================================================== *)
(** ** components/preferences/PreferencesPage.tsx *)

Module PreferencesPage.
Import SettingsJson.

Record GeneralSettings := mkGeneralSettings {
  saveDir : jsstring;
  copyToClipboard : bool;
  forensicMetadataEnabled : bool;
  forensicTeam : jsstring;
  forensicUser : jsstring
}.

(** The component's two pieces of state. *)
Record State := mkState {
  settings : GeneralSettings;
  isLoading : bool
}.

Definition initialState : State :=
  {| settings := mkGeneralSettings (lit "") true false (lit "") (lit "");
     isLoading := true |}.

(** [value || ""] on a stored string. *)
Definition orEmpty (v : option jsstring) : jsstring :=
  match v with
  | Some s => or_else s (lit "")
  | None => lit ""
  end.

(** [value ?? fallback] on a stored boolean. *)
Definition orDefault (v : option bool) (fallback : bool) : bool :=
  match v with
  | Some b => b
  | None => fallback
  end.

(** [loadSettings] of the mount effect; [read] is [inl] when [Store.load]
    or a [get] throws, all of which come before [setSettings]. *)
Definition loadSettings (read : Error + SettingsFile) (st : State)
  : State * list UiEvent :=
  match read with
  | inr f =>
      ({| settings :=
            {| saveDir := orEmpty (SettingsJson.saveDir f);
               copyToClipboard :=
                 orDefault (SettingsJson.copyToClipboard f) true;
               forensicMetadataEnabled :=
                 orDefault (SettingsJson.forensicMetadataEnabled f) false;
               forensicTeam := orEmpty (SettingsJson.forensicTeam f);
               forensicUser := orEmpty (SettingsJson.forensicUser f) |};
          isLoading := false |},
       [])
  | inl err =>
      ({| settings := settings st; isLoading := false |},
       [Console (lit "Failed to load settings:") (Thrown err)])
  end.

(** A key of [GeneralSettings] with a value of its type. *)
Inductive Update :=
| SaveDir (value : jsstring)
| CopyToClipboard (value : bool)
| ForensicMetadataEnabled (value : bool)
| ForensicTeam (value : jsstring)
| ForensicUser (value : jsstring).

Definition keyName (u : Update) : jsstring :=
  match u with
  | SaveDir _ => lit "saveDir"
  | CopyToClipboard _ => lit "copyToClipboard"
  | ForensicMetadataEnabled _ => lit "forensicMetadataEnabled"
  | ForensicTeam _ => lit "forensicTeam"
  | ForensicUser _ => lit "forensicUser"
  end.

(** [{ ...prev, [key]: value }]. *)
Definition spread (u : Update) (prev : GeneralSettings) : GeneralSettings :=
  match u with
  | SaveDir v =>
      mkGeneralSettings v (copyToClipboard prev)
        (forensicMetadataEnabled prev) (forensicTeam prev) (forensicUser prev)
  | CopyToClipboard v =>
      mkGeneralSettings (saveDir prev) v
        (forensicMetadataEnabled prev) (forensicTeam prev) (forensicUser prev)
  | ForensicMetadataEnabled v =>
      mkGeneralSettings (saveDir prev) (copyToClipboard prev) v
        (forensicTeam prev) (forensicUser prev)
  | ForensicTeam v =>
      mkGeneralSettings (saveDir prev) (copyToClipboard prev)
        (forensicMetadataEnabled prev) v (forensicUser prev)
  | ForensicUser v =>
      mkGeneralSettings (saveDir prev) (copyToClipboard prev)
        (forensicMetadataEnabled prev) (forensicTeam prev) v
  end.

(** [store.set(key, value)] for that key. *)
Definition assignment (u : Update) : Assignment :=
  match u with
  | SaveDir v => SetSaveDir v
  | CopyToClipboard v => SetCopyToClipboard v
  | ForensicMetadataEnabled v => SetForensicMetadataEnabled v
  | ForensicTeam v => SetForensicTeam v
  | ForensicUser v => SetForensicUser v
  end.

(** [updateSetting(key, value)]; [onSettingsChange] tells whether the
    optional callback was passed. *)
Definition updateSetting (faults : Faults) (onSettingsChange : bool)
    (u : Update) (st : State) (f : SettingsFile)
  : State * SettingsFile * list UiEvent :=
  let st' := {| settings := spread u (settings st);
                isLoading := isLoading st |} in
  match runCalls faults 0 [CallLoad; CallSet (assignment u); CallSave] f with
  | (f', None) =>
      (st', f', if onSettingsChange then [OnSettingsChange] else [])
  | (f', Some err) =>
      (st', f',
       [Console (lit "Failed to save " ++ keyName u ++ lit ":") (Thrown err);
        ToastError (lit "Failed to save setting")])
  end.

End PreferencesPage.

(* ================================================================== *)
(** ** components/preferences/BackgroundImageSelector.tsx *)

Module BackgroundImageSelector.
Import SettingsJson.

(** [./asset-registry], as far as the selector's handlers call it. *)
Class AssetIds := {
  toStorableValue : jsstring -> option jsstring;
  getAssetPath : jsstring -> option jsstring
}.

(** The component's four pieces of state. *)
Record State := mkState {
  backgroundType : BackgroundType;
  customColor : jsstring;
  selectedImage : option jsstring;
  uploadedImages : list (option jsstring)
}.

Definition initialState : State :=
  mkState image (lit "#667eea") None [].

(** [loadSettings] of the mount effect. *)
Definition loadSettings (read : Error + SettingsFile) (st : State)
  : State * list UiEvent :=
  match read with
  | inr f =>
      let backgroundType :=
        match SettingsJson.defaultBackgroundType f with
        | Some storedBgType => storedBgType
        | None => backgroundType st
        end in
      let customColor :=
        match SettingsJson.defaultCustomColor f with
        | Some storedCustomColor =>
            if truthy storedCustomColor then storedCustomColor
            else customColor st
        | None => customColor st
        end in
      let selectedImage :=
        match SettingsJson.defaultBackgroundImage f with
        | Some storedBg =>
            if truthy storedBg then Some storedBg else selectedImage st
        | None => selectedImage st
        end in
      let uploadedImages :=
        match SettingsJson.uploadedBackgroundImages f with
        | Some uploaded => uploaded
        | None => uploadedImages st
        end in
      (mkState backgroundType customColor selectedImage uploadedImages, [])
  | inl err =>
      (st, [Console (lit "Failed to load background settings:") (Thrown err)])
  end.

(** The [try]/[catch] every handler ends with. *)
Definition saveDefault (faults : Faults) (calls : list StoreCall)
    (f : SettingsFile) : SettingsFile * list UiEvent :=
  match runCalls faults 0 calls f with
  | (f', None) => (f', [ToastSuccess (lit "Default background updated")])
  | (f', Some err) =>
      (f',
       [Console (lit "Failed to save default background:") (Thrown err);
        ToastError (lit "Failed to save default background")])
  end.

Definition handleImageSelect `{AssetIds} (faults : Faults)
    (imageSrc : jsstring) (st : State) (f : SettingsFile)
  : State * SettingsFile * list UiEvent :=
  match toStorableValue imageSrc with
  | Some storableValue =>
      if truthy storableValue then
        let st' := mkState image (customColor st) (Some storableValue)
                     (uploadedImages st) in
        let (f', events) :=
          saveDefault faults
            [CallLoad; CallSet (SetDefaultBackgroundType image);
             CallSet (SetDefaultBackgroundImage (Some storableValue)); CallSave] f in
        (st', f', OnImageSelect imageSrc :: events)
      else
        (st, f,
         [Console (lit "Cannot store this image path:") (Text imageSrc);
          ToastError (lit "Failed to save background selection")])
  | None =>
      (st, f,
       [Console (lit "Cannot store this image path:") (Text imageSrc);
        ToastError (lit "Failed to save background selection")])
  end.

Definition handleSolidColorSelect (faults : Faults) (type : BackgroundType)
    (st : State) (f : SettingsFile) : State * SettingsFile * list UiEvent :=
  let st' := mkState type (customColor st) None (uploadedImages st) in
  let (f', events) :=
    saveDefault faults
      (CallLoad :: CallSet (SetDefaultBackgroundType type) ::
       match type with
       | image => [CallSet (SetDefaultBackgroundImage None)]
       | _ => []
       end ++ [CallSave]) f in
  (st', f', events).

Definition handleCustomColorChange (faults : Faults) (color : jsstring)
    (st : State) (f : SettingsFile) : State * SettingsFile * list UiEvent :=
  let st' := mkState custom color None (uploadedImages st) in
  let (f', events) :=
    saveDefault faults
      [CallLoad; CallSet (SetDefaultBackgroundType custom);
       CallSet (SetDefaultCustomColor color);
       CallSet (SetDefaultBackgroundImage None); CallSave] f in
  (st', f', events).

(** An entry of [gradientOptions]. *)
Record GradientOption := mkGradientOption {
  id : jsstring;
  name : jsstring;
  src : jsstring
}.

Definition gradientId (gradientOption : GradientOption) : jsstring :=
  replaceFirst (lit "mesh-") (lit "gradient-") (id gradientOption).

(** The [onClick] of a gradient's button. *)
Definition gradient_onClick `{AssetIds} (faults : Faults)
    (gradientOption : GradientOption) (st : State) (f : SettingsFile)
  : State * SettingsFile * list UiEvent :=
  let assetPath :=
    match getAssetPath (gradientId gradientOption) with
    | Some p => p
    | None => src gradientOption
    end in
  let st' := mkState gradient (customColor st)
               (Some (gradientId gradientOption)) (uploadedImages st) in
  let (f', events) :=
    saveDefault faults
      [CallLoad; CallSet (SetDefaultBackgroundType gradient);
       CallSet (SetDefaultBackgroundImage (Some (gradientId gradientOption)));
       CallSave] f in
  (st', f', OnImageSelect assetPath :: events).

(** [array.filter((_, i) => i !== index)]. *)
Fixpoint removeAt {A : Type} (index : nat) (l : list A) : list A :=
  match l, index with
  | [], _ => []
  | _ :: l', O => l'
  | a :: l', S i => a :: removeAt i l'
  end.

Definition handleRemoveUploaded (faults : Faults) (index : nat) (st : State)
    (f : SettingsFile) : State * SettingsFile * list UiEvent :=
  let newUploadedImages := removeAt index (uploadedImages st) in
  let selectedImage :=
    match selectedImage st, nth_error (uploadedImages st) index with
    | Some selected, Some (Some removed) =>
        if Js.eqb selected removed then None else Some selected
    | other, _ => other
    end in
  let st' := mkState (backgroundType st) (customColor st) selectedImage
               newUploadedImages in
  match runCalls faults 0
          [CallLoad; CallSet (SetUploadedBackgroundImages newUploadedImages); CallSave] f
  with
  | (f', None) => (st', f', [ToastSuccess (lit "Image removed")])
  | (f', Some err) =>
      (st', f',
       [Console (lit "Failed to remove image:") (Thrown err);
        ToastError (lit "Failed to remove image")])
  end.

(** The first file of the input: its MIME type and what [readAsDataURL]
    ends in ([None] for a read that fails). *)
Record File := mkFile {
  type : jsstring;
  contents : option jsstring
}.

(** [reader.onloadend] of an upload, with the list the handler closed
    over. *)
Definition upload_onloadend (faults : Faults) (dataUrl : option jsstring)
    (st : State) (f : SettingsFile) : State * SettingsFile * list UiEvent :=
  let newUploadedImages := uploadedImages st ++ [dataUrl] in
  let st' := mkState (backgroundType st) (customColor st) (selectedImage st)
               newUploadedImages in
  match runCalls faults 0
          [CallLoad; CallSet (SetUploadedBackgroundImages newUploadedImages); CallSave] f
  with
  | (f', None) => (st', f', [ToastSuccess (lit "Image uploaded successfully")])
  | (f', Some err) =>
      (st', f',
       [Console (lit "Failed to save uploaded image:") (Thrown err);
        ToastError (lit "Failed to save uploaded image")])
  end.

(** [handleFileUpload]: the input is reset right after the read is
    started; a read that fails fires [error] and then [loadend]. *)
Definition handleFileUpload (faults : Faults) (file : option File)
    (st : State) (f : SettingsFile) : State * SettingsFile * list UiEvent :=
  match file with
  | None => (st, f, [])
  | Some file =>
      if negb (startsWith (lit "image/") (type file)) then
        (st, f, [ToastError (lit "Please select an image file")])
      else
        let '(st', f', events) :=
          upload_onloadend faults (contents file) st f in
        (st', f',
         ResetFileInput ::
         match contents file with
         | Some _ => events
         | None => ToastError (lit "Failed to read image file") :: events
         end)
  end.

End BackgroundImageSelector.

(* ================================================================== *)
(** ** A test bench for the preference components *)

Module Desk.
Import SettingsJson.

(** A registry that stores data URLs as they are and knows one asset. *)
Definition assetIds : BackgroundImageSelector.AssetIds :=
  {| BackgroundImageSelector.toStorableValue := fun imageSrc =>
       if startsWith (lit "data:") imageSrc then Some imageSrc
       else if Js.eqb imageSrc (lit "/bg/mesh-1.jpg") then Some (lit "mesh-1")
       else None;
     BackgroundImageSelector.getAssetPath := fun assetId =>
       if Js.eqb assetId (lit "mesh-1") then Some (lit "/bg/mesh-1.jpg")
       else None |}.

Definition file : SettingsFile :=
  mkSettingsFile (Some (lit "~/Desktop")) None (Some true)
    (Some (lit " ops")) None (Some image) (Some (lit "#112233"))
    (Some (lit "mesh-1"))
    (Some [Some (lit "data:image/png;base64,AAAA");
           Some (lit "data:image/png;base64,BBBB")]).

Definition selector : BackgroundImageSelector.State :=
  fst (BackgroundImageSelector.loadSettings (inr file)
         BackgroundImageSelector.initialState).

Definition page : PreferencesPage.State :=
  fst (PreferencesPage.loadSettings (inr file) PreferencesPage.initialState).

(** The store throws at its call number [n]. *)
Definition faultAt (n : nat) : Faults :=
  fun m => if Nat.eqb m n then Some (mkError (lit "store is locked"))
           else None.

Definition png : BackgroundImageSelector.File :=
  BackgroundImageSelector.mkFile (lit "image/png")
    (Some (lit "data:image/png;base64,CCCC")).

End Desk.

(* ================================================================== *)
(** ** Properties *)

Arguments lit : simpl never.

Ltac break_match :=
  match goal with
  | |- context [match ?x with _ => _ end] => destruct x eqn:?
  | H : context [match ?x with _ => _ end] |- _ => destruct x eqn:?
  end.

(** The model on the specification's scenarios: a custom colour gives a
    1000x800 surface, a transparent background leaves 800x600, the footer
    adds 64 rows, and a failing reader rejects although [onloadend] still
    calls [resolve]. *)
Example trim_strips_both_ends :
  trim (lit "  ops" ++ [160%N; 10%N]) = lit "ops".
Proof. reflexivity. Qed.

Example scenario_custom_colour :
  settled
    (AutoProcess.processScreenshotWithDefaultBackground
       (W := Bench.host
               (inr (Bench.storeWith custom None false (lit "") (lit "")))
               false)
       (R := Bench.registry) (C := Bench.compositor)
       (lit "shot.png") Bench.options)
  = Fulfilled (Some (lit "data:image/png;base64," ++ [1000%N; 800%N])).
Proof. reflexivity. Qed.

Example scenario_transparent :
  settled
    (AutoProcess.processScreenshotWithDefaultBackground
       (W := Bench.host
               (inr (Bench.storeWith transparent None false (lit "")
                       (lit "")))
               false)
       (R := Bench.registry) (C := Bench.compositor)
       (lit "shot.png") Bench.options)
  = Fulfilled (Some (lit "data:image/png;base64," ++ [800%N; 600%N])).
Proof. reflexivity. Qed.

Example scenario_forensic_footer :
  settled
    (AutoProcess.processScreenshotWithDefaultBackground
       (W := Bench.host
               (inr (Bench.storeWith custom None true (lit "security")
                       (lit "")))
               false)
       (R := Bench.registry) (C := Bench.compositor)
       (lit "shot.png") Bench.options)
  = Fulfilled (Some (lit "data:image/png;base64," ++ [1000%N; 864%N])).
Proof. reflexivity. Qed.

Example scenario_failing_reader :
  AutoProcess.processScreenshotWithDefaultBackground
    (W := Bench.host
            (inr (Bench.storeWith transparent None false (lit "") (lit "")))
            true)
    (R := Bench.registry) (C := Bench.compositor)
    (lit "shot.png") Bench.options
  = [SetSrc SourceImg (lit "asset://shot.png"); OnLoad SourceImg;
     CreateHighQualityCanvas
       (mkCanvasOptions Bench.shot transparent (lit "#667eea") None None
          0 20 18 0 None (mkShadow 0 0 0 0));
     ToBlob (mkCanvas 800 600 [Pixels []]) (lit "image/png") 1;
     ReadAsDataURL (mkBlob (lit "image/png") [800%N; 600%N]);
     ReaderError;
     Reject (mkError (lit "Failed to read processed image"));
     ReaderLoadEnd; Resolve None]
  /\
  settled
    (AutoProcess.processScreenshotWithDefaultBackground
       (W := Bench.host
               (inr (Bench.storeWith transparent None false (lit "")
                       (lit "")))
               true)
       (R := Bench.registry) (C := Bench.compositor)
       (lit "shot.png") Bench.options)
  = Rejected (mkError (lit "Failed to read processed image")).
Proof. split; reflexivity. Qed.

Lemma appendForensicMetadata_size (gc : Canvas -> bool) (src : Canvas)
    (opts : ForensicMetadataOptions) (out : Canvas) :
  appendForensicMetadata gc src opts = inr out ->
  width out = width src /\ height out = height src + footerHeight.
Proof.
  unfold appendForensicMetadata.
  destruct (gc _); simpl; [|discriminate].
  intros E; injection E as <-. split; reflexivity.
Qed.

Lemma appendForensicMetadata_total (gc : Canvas -> bool) (src : Canvas)
    (opts : ForensicMetadataOptions) :
  gc (createCanvas (width src) (height src + footerHeight)) = true ->
  exists out, appendForensicMetadata gc src opts = inr out.
Proof.
  intros G. unfold appendForensicMetadata. rewrite G. simpl. eauto.
Qed.

Lemma appendForensicMetadata_texts (gc : Canvas -> bool) (src : Canvas)
    (opts : ForensicMetadataOptions) (out : Canvas) :
  appendForensicMetadata gc src opts = inr out ->
  texts out =
  footerLines (height src) (ForensicMetadata.timestampUtc opts)
    (lit "User: " ++ ForensicMetadata.userLabel opts).
Proof.
  unfold appendForensicMetadata.
  destruct (gc _); simpl; [|discriminate].
  intros E; injection E as <-.
  unfold footerLines, footerPaddingX, footerPaddingY, lineHeight, lineGap.
  replace (height src + 12 + 22) with (height src + 12 + 18 + 4) by lia.
  reflexivity.
Qed.

Lemma or_else_trim (s : jsstring) :
  or_else (trim s) (lit "unknown") = renderedComponent s.
Proof.
  unfold or_else, renderedComponent, blank.
  destruct (truthy (trim s)); reflexivity.
Qed.

Section Footer.
Context {W : Host} {R : AssetRegistry} {C : Compositor}.

(** C2.  [appendForensicMetadata] returns, whenever the 2D context of the
    new canvas is handed out, a canvas as wide as its input and exactly
    64 pixels higher (64 = 2*12 + 2*18 + 4 is the footer height), and it
    returns no other canvas; with forensic metadata disabled
    [applyForensicMetadata] gives the composite back unchanged. *)
Theorem C2_footer_dimensions :
  (forall (gc : Canvas -> bool) (src : Canvas)
          (opts : ForensicMetadataOptions),
      gc (createCanvas (width src) (height src + 64)) = true ->
      exists out,
        appendForensicMetadata gc src opts = inr out /\
        width out = width src /\
        height out = height src + 64)
  /\ (forall (gc : Canvas -> bool) (src out : Canvas)
             (opts : ForensicMetadataOptions),
        appendForensicMetadata gc src opts = inr out ->
        width out = width src /\ height out = height src + 64)
  /\ footerHeight = 2 * 12 + 2 * 18 + 4
  /\ (forall (s : AutoProcess.Settings)
             (options : AutoProcess.AutoProcessOptions)
             (composite : Canvas),
        AutoProcess.forensicEnabled s = false ->
        AutoProcess.applyForensicMetadata s options composite
        = inr composite).
Proof.
  split; [|split; [|split]].
  - intros gc src opts G.
    destruct (appendForensicMetadata_total gc src opts G) as [out E].
    exists out. split; [exact E|].
    apply appendForensicMetadata_size in E. exact E.
  - intros gc src out opts E.
    apply appendForensicMetadata_size in E. exact E.
  - reflexivity.
  - intros s options composite E.
    unfold AutoProcess.applyForensicMetadata. rewrite E. reflexivity.
Qed.

(** C3 (amended).  With forensic metadata enabled, the footer's text is
    two lines in colour #0f172a with baseline [top]: "UTC: " followed by
    the timestamp at (24, h+12), and 22 pixels lower "User: " followed by
    team, "/" and user, where each of team and user is rendered trimmed,
    and as "unknown" when nothing is left after trimming. *)
Theorem C3_footer_text :
  forall (s : AutoProcess.Settings)
         (options : AutoProcess.AutoProcessOptions)
         (composite out : Canvas),
    AutoProcess.forensicEnabled s = true ->
    AutoProcess.applyForensicMetadata s options composite = inr out ->
    texts out =
    footerLines (height composite)
      (match AutoProcess.timestampUtc options with
       | Some t => t
       | None => now
       end)
      (lit "User: "
       ++ renderedComponent (AutoProcess.forensicTeam s)
       ++ lit "/"
       ++ renderedComponent (AutoProcess.forensicUser s)).
Proof.
  intros s options composite out En E.
  unfold AutoProcess.applyForensicMetadata in E.
  rewrite En in E. simpl in E.
  apply appendForensicMetadata_texts in E.
  rewrite E. simpl ForensicMetadata.timestampUtc.
  simpl ForensicMetadata.userLabel.
  unfold AutoProcess.buildUserLabel.
  rewrite !or_else_trim. reflexivity.
Qed.

End Footer.

Lemma C2_footer_dimensions_witness :
  (exists out,
      appendForensicMetadata (fun _ => true) Bench.composite
        (mkOptions (lit "2024-01-01T00:00:00Z") (lit "security/unknown"))
      = inr out /\ width out = 1000 /\ height out = 800 + 64)
  /\ AutoProcess.applyForensicMetadata
       (W := Bench.host (inl (mkError (lit "no store"))) false)
       (AutoProcess.initialSettings (R := Bench.registry))
       Bench.options Bench.composite
     = inr Bench.composite.
Proof.
  pose proof (@C2_footer_dimensions
                (Bench.host (inl (mkError (lit "no store"))) false))
    as [Hsize [_ [_ Hoff]]].
  split.
  - apply (Hsize (fun _ => true) Bench.composite). reflexivity.
  - apply Hoff. reflexivity.
Defined.

Lemma C3_footer_text_witness :
  let W := Bench.host
             (inr (Bench.storeWith custom None true (lit "security") (lit "")))
             false in
  let s := fst (AutoProcess.loadSettings (W := W) (R := Bench.registry)) in
  exists out,
    AutoProcess.applyForensicMetadata (W := W) s Bench.options Bench.composite
    = inr out /\
    texts out =
    footerLines 800 (lit "2024-01-01T00:00:00Z")
      (lit "User: security/unknown").
Proof.
  intros W s. eexists. split; [reflexivity|].
  rewrite (C3_footer_text (W := W) s Bench.options Bench.composite _
             eq_refl eq_refl).
  reflexivity.
Defined.

(** C3, as stated, fails: a team configured with a leading blank is
    rendered trimmed, not as configured. *)
Lemma C3_counterexample :
  let W := Bench.host
             (inr (Bench.storeWith custom None true (lit " ops") (lit "amy")))
             false in
  let s := fst (AutoProcess.loadSettings (W := W) (R := Bench.registry)) in
  exists out,
    AutoProcess.applyForensicMetadata (W := W) s Bench.options Bench.composite
    = inr out /\
    texts out <>
    footerLines 800 (lit "2024-01-01T00:00:00Z")
      (claimedUserLine (lit " ops") (lit "amy")).
Proof.
  intros W s. eexists. split; [reflexivity|].
  intros E. vm_compute in E. discriminate E.
Qed.

Ltac unfold_handlers :=
  unfold AutoProcess.img_onload, AutoProcess.img_onerror,
    AutoProcess.bgImage_onload, AutoProcess.bgImage_onerror,
    AutoProcess.compose,
    AutoProcessV1.img_onload, AutoProcessV1.img_onerror,
    AutoProcessV1.bgImage_onload, AutoProcessV1.bgImage_onerror,
    AutoProcessV1.compose, toBlobAndSettle, toBlob in *.

Ltac crunch :=
  repeat (first
            [ match goal with
              | H : Some _ = Some _ |- _ => injection H as H; try subst
              end
            | break_match ];
          simpl in *; try discriminate).

(** Membership in an explicit trace, one event at a time. *)
Ltac pick :=
  repeat match goal with
    | H : _ \/ _ |- _ => destruct H as [H|H]
    | H : False |- _ => destruct H
    | H : @eq Event _ _ |- _ => first [discriminate H | injection H as <-]
    | H : In _ (_ ++ _) |- _ => apply in_app_or in H
    | H : In _ (_ :: _) |- _ => simpl in H
    | H : In _ [] |- _ => destruct H
    end.

Section Orchestration.
Context {W : Host} {R : AssetRegistry} {C : Compositor}.

(** The invocation, revision with the forensic step: what the settings
    block logged, then the source decode and its handler. *)
Lemma run_unfold (imagePath : jsstring)
    (options : AutoProcess.AutoProcessOptions) :
  AutoProcess.processScreenshotWithDefaultBackground imagePath options =
  snd AutoProcess.loadSettings ++
  SetSrc SourceImg (convertFileSrc imagePath) ::
  match decode (convertFileSrc imagePath) with
  | Some img =>
      OnLoad SourceImg ::
      AutoProcess.img_onload (fst AutoProcess.loadSettings) options img
  | None => OnError SourceImg :: AutoProcess.img_onerror imagePath
  end.
Proof.
  unfold AutoProcess.processScreenshotWithDefaultBackground.
  destruct AutoProcess.loadSettings; reflexivity.
Qed.

Lemma runV1_unfold (imagePath : jsstring) :
  AutoProcessV1.processScreenshotWithDefaultBackground imagePath =
  snd AutoProcessV1.loadSettings ++
  SetSrc SourceImg (convertFileSrc imagePath) ::
  match decode (convertFileSrc imagePath) with
  | Some img =>
      OnLoad SourceImg ::
      AutoProcessV1.img_onload (fst AutoProcessV1.loadSettings) img
  | None => OnError SourceImg :: AutoProcessV1.img_onerror imagePath
  end.
Proof.
  unfold AutoProcessV1.processScreenshotWithDefaultBackground.
  destruct AutoProcessV1.loadSettings; reflexivity.
Qed.

(** The settings block logs nothing, or one console error when the store
    threw, and then every variable keeps its initial value. *)
Lemma logged_cases :
  (exists store,
      loadStore (lit "settings.json") = inr store /\
      AutoProcess.loadSettings = (AutoProcess.readStore store, []))
  \/
  (exists err,
      loadStore (lit "settings.json") = inl err /\
      AutoProcess.loadSettings =
      (AutoProcess.initialSettings,
       [ConsoleError
          (lit "Failed to load default background from settings:") err])).
Proof.
  unfold AutoProcess.loadSettings.
  destruct (loadStore _) as [err|store]; [right|left]; eauto.
Qed.

Lemma loggedV1_cases :
  (exists store,
      loadStore (lit "settings.json") = inr store /\
      AutoProcessV1.loadSettings = (AutoProcessV1.readStore store, []))
  \/
  (exists err,
      loadStore (lit "settings.json") = inl err /\
      AutoProcessV1.loadSettings =
      (AutoProcessV1.initialSettings,
       [ConsoleError
          (lit "Failed to load default background from settings:") err])).
Proof.
  unfold AutoProcessV1.loadSettings.
  destruct (loadStore _) as [err|store]; [right|left]; eauto.
Qed.

Lemma logged_console (e : Event) :
  In e (snd AutoProcess.loadSettings) -> isConsole e = true.
Proof.
  destruct logged_cases as [(store & _ & ->)|(err & _ & ->)]; simpl.
  - tauto.
  - intros [<-|[]]. reflexivity.
Qed.

Lemma loggedV1_console (e : Event) :
  In e (snd AutoProcessV1.loadSettings) -> isConsole e = true.
Proof.
  destruct loggedV1_cases as [(store & _ & ->)|(err & _ & ->)]; simpl.
  - tauto.
  - intros [<-|[]]. reflexivity.
Qed.

(** Counting a kind of event that the settings block never emits. *)
Lemma attempts_logged (stage : Event -> bool) (rest : Trace) :
  (forall e, isConsole e = true -> stage e = false) ->
  attempts stage (snd AutoProcess.loadSettings ++ rest)
  = attempts stage rest.
Proof.
  intros N. unfold attempts.
  destruct logged_cases as [(store & _ & ->)|(err & _ & ->)]; simpl.
  - reflexivity.
  - rewrite N; reflexivity.
Qed.

Lemma attemptsV1_logged (stage : Event -> bool) (rest : Trace) :
  (forall e, isConsole e = true -> stage e = false) ->
  attempts stage (snd AutoProcessV1.loadSettings ++ rest)
  = attempts stage rest.
Proof.
  intros N. unfold attempts.
  destruct loggedV1_cases as [(store & _ & ->)|(err & _ & ->)]; simpl.
  - reflexivity.
  - rewrite N; reflexivity.
Qed.

Lemma console_not (stage : Event -> bool) :
  (stage = isCompose \/ stage = isToBlob \/ stage = isRead
   \/ stage = isSetSrc SourceImg \/ stage = isSetSrc BackgroundImg) ->
  forall e, isConsole e = true -> stage e = false.
Proof.
  intros S e. destruct e; try discriminate. intros _.
  destruct S as [->|[->|[->|[->| ->]]]]; reflexivity.
Qed.

(** C1.  When the resolved background type is [transparent], every call
    of the compositor carries padding 0 and a shadow whose blur, offsets
    and opacity are all 0; and the compositor is called once the source
    image has decoded.  Both revisions of the orchestrator. *)
Theorem C1_transparent_padding_and_shadow :
  (forall (imagePath : jsstring)
          (options : AutoProcess.AutoProcessOptions),
      AutoProcess.backgroundType (fst AutoProcess.loadSettings)
      = transparent ->
      let tr :=
        AutoProcess.processScreenshotWithDefaultBackground
          imagePath options in
      (forall opts, In (CreateHighQualityCanvas opts) tr ->
                    CanvasUtils.padding opts = 0 /\
                    CanvasUtils.shadow opts = mkShadow 0 0 0 0) /\
      (forall img, decode (convertFileSrc imagePath) = Some img ->
                   attempts isCompose tr = 1%nat))
  /\
  (forall (imagePath : jsstring),
      AutoProcessV1.backgroundType (fst AutoProcessV1.loadSettings)
      = transparent ->
      let tr :=
        AutoProcessV1.processScreenshotWithDefaultBackground imagePath in
      (forall opts, In (CreateHighQualityCanvas opts) tr ->
                    CanvasUtils.padding opts = 0 /\
                    CanvasUtils.shadow opts = mkShadow 0 0 0 0) /\
      (forall img, decode (convertFileSrc imagePath) = Some img ->
                   attempts isCompose tr = 1%nat)).
Proof.
  split.
  - intros imagePath options T tr. subst tr. rewrite run_unfold. split.
    + intros opts I. apply in_app_or in I. destruct I as [I|I].
      * apply logged_console in I. discriminate I.
      * unfold_handlers. rewrite T in I. simpl in I.
        crunch; pick; simpl; rewrite T; auto.
    + intros img D. rewrite D.
      rewrite attempts_logged by (apply console_not; auto).
      unfold_handlers. rewrite T. simpl. crunch; reflexivity.
  - intros imagePath T tr. subst tr. rewrite runV1_unfold. split.
    + intros opts I. apply in_app_or in I. destruct I as [I|I].
      * apply loggedV1_console in I. discriminate I.
      * unfold_handlers. rewrite T in I. simpl in I.
        crunch; pick; simpl; rewrite T; auto.
    + intros img D. rewrite D.
      rewrite attemptsV1_logged by (apply console_not; auto).
      unfold_handlers. rewrite T. simpl. crunch; reflexivity.
Qed.

(** C9.  When the resolved background type is not [transparent], the
    compositor is called, once, as soon as the source image has decoded
    (and, for type [image] or [gradient], the background image too), and
    every call carries padding 100, border radius 18, noise 20, blur 0 and
    the shadow (33, 18, 23, 39); whatever the store holds, these are
    constants of the orchestrator (border radius, noise and blur for
    every background type).  Both revisions. *)
Theorem C9_fixed_composition_parameters :
  (forall (imagePath : jsstring)
          (options : AutoProcess.AutoProcessOptions)
          (opts : CanvasOptions),
      In (CreateHighQualityCanvas opts)
        (AutoProcess.processScreenshotWithDefaultBackground
           imagePath options) ->
      (CanvasUtils.borderRadius opts = 18 /\
       CanvasUtils.noiseAmount opts = 20 /\
       CanvasUtils.blurAmount opts = 0) /\
      (AutoProcess.backgroundType (fst AutoProcess.loadSettings)
       <> transparent ->
       compositionParameters opts
       = (100, 18, 20, 0, mkShadow 33 18 23 39)))
  /\
  (forall (imagePath : jsstring) (opts : CanvasOptions),
      In (CreateHighQualityCanvas opts)
        (AutoProcessV1.processScreenshotWithDefaultBackground imagePath) ->
      (CanvasUtils.borderRadius opts = 18 /\
       CanvasUtils.noiseAmount opts = 20 /\
       CanvasUtils.blurAmount opts = 0) /\
      (AutoProcessV1.backgroundType (fst AutoProcessV1.loadSettings)
       <> transparent ->
       compositionParameters opts
       = (100, 18, 20, 0, mkShadow 33 18 23 39)))
  /\
  (forall (imagePath : jsstring)
          (options : AutoProcess.AutoProcessOptions) (img : Image),
      let s := fst AutoProcess.loadSettings in
      let tr :=
        AutoProcess.processScreenshotWithDefaultBackground
          imagePath options in
      AutoProcess.backgroundType s <> transparent ->
      decode (convertFileSrc imagePath) = Some img ->
      (isImageOrGradient (AutoProcess.backgroundType s) = true ->
       decode (AutoProcess.defaultBgImage s) <> None) ->
      attempts isCompose tr = 1%nat /\
      exists opts,
        In (CreateHighQualityCanvas opts) tr /\
        CanvasUtils.image opts = img /\
        CanvasUtils.backgroundType opts = AutoProcess.backgroundType s /\
        compositionParameters opts
        = (100, 18, 20, 0, mkShadow 33 18 23 39))
  /\
  (forall (imagePath : jsstring) (img : Image),
      let s := fst AutoProcessV1.loadSettings in
      let tr :=
        AutoProcessV1.processScreenshotWithDefaultBackground imagePath in
      AutoProcessV1.backgroundType s <> transparent ->
      decode (convertFileSrc imagePath) = Some img ->
      (isImageOrGradient (AutoProcessV1.backgroundType s) = true ->
       decode (AutoProcessV1.defaultBgImage s) <> None) ->
      attempts isCompose tr = 1%nat /\
      exists opts,
        In (CreateHighQualityCanvas opts) tr /\
        CanvasUtils.image opts = img /\
        CanvasUtils.backgroundType opts = AutoProcessV1.backgroundType s /\
        compositionParameters opts
        = (100, 18, 20, 0, mkShadow 33 18 23 39)).
Proof.
  split; [|split; [|split]].
  - intros imagePath options opts I. rewrite run_unfold in I.
    apply in_app_or in I. destruct I as [I|I].
    + apply logged_console in I. discriminate I.
    + unfold_handlers.
      destruct (AutoProcess.backgroundType (fst AutoProcess.loadSettings))
        eqn:T; simpl in I;
        crunch; pick; unfold compositionParameters; simpl; rewrite ?T;
        (split; [auto | intros N; try reflexivity; congruence]).
  - intros imagePath opts I. rewrite runV1_unfold in I.
    apply in_app_or in I. destruct I as [I|I].
    + apply loggedV1_console in I. discriminate I.
    + unfold_handlers.
      destruct (AutoProcessV1.backgroundType
                  (fst AutoProcessV1.loadSettings))
        eqn:T; simpl in I;
        crunch; pick; unfold compositionParameters; simpl; rewrite ?T;
        (split; [auto | intros N; try reflexivity; congruence]).
  - intros imagePath options img s tr N D B. subst tr.
    rewrite run_unfold, D.
    rewrite attempts_logged by (apply console_not; auto).
    fold s. unfold AutoProcess.img_onload, AutoProcess.bgImage_onload.
    destruct (isImageOrGradient (AutoProcess.backgroundType s)) eqn:G.
    + destruct (decode (AutoProcess.defaultBgImage s)) as [bg|] eqn:Dbg;
        [|exfalso; apply (B eq_refl); reflexivity].
      split.
      * unfold AutoProcess.compose, toBlobAndSettle, toBlob, attempts.
        simpl. crunch; reflexivity.
      * exists (AutoProcess.imageOptions s img bg).
        split; [|repeat split].
        apply in_or_app. right. unfold AutoProcess.compose. simpl. auto 6.
    + split.
      * unfold AutoProcess.compose, toBlobAndSettle, toBlob, attempts.
        simpl. crunch; reflexivity.
      * exists (AutoProcess.plainOptions s img).
        split; [|split; [reflexivity|split; [reflexivity|]]].
        -- apply in_or_app. right. unfold AutoProcess.compose. simpl. auto.
        -- unfold compositionParameters, AutoProcess.plainOptions. simpl.
           destruct (AutoProcess.backgroundType s); try reflexivity.
           congruence.
  - intros imagePath img s tr N D B. subst tr.
    rewrite runV1_unfold, D.
    rewrite attemptsV1_logged by (apply console_not; auto).
    fold s. unfold AutoProcessV1.img_onload, AutoProcessV1.bgImage_onload.
    destruct (isImageOrGradient (AutoProcessV1.backgroundType s)) eqn:G.
    + destruct (decode (AutoProcessV1.defaultBgImage s)) as [bg|] eqn:Dbg;
        [|exfalso; apply (B eq_refl); reflexivity].
      split.
      * unfold AutoProcessV1.compose, toBlobAndSettle, toBlob, attempts.
        simpl. crunch; reflexivity.
      * exists (AutoProcessV1.imageOptions s img bg).
        split; [|repeat split].
        apply in_or_app. right. unfold AutoProcessV1.compose. simpl. auto 6.
    + split.
      * unfold AutoProcessV1.compose, toBlobAndSettle, toBlob, attempts.
        simpl. crunch; reflexivity.
      * exists (AutoProcessV1.plainOptions s img).
        split; [|split; [reflexivity|split; [reflexivity|]]].
        -- apply in_or_app. right. unfold AutoProcessV1.compose. simpl. auto.
        -- unfold compositionParameters, AutoProcessV1.plainOptions. simpl.
           destruct (AutoProcessV1.backgroundType s); try reflexivity.
           congruence.
Qed.

Lemma orderedAfter_split (first later : Event -> bool) (tr : Trace) :
  orderedAfter first later tr = true ->
  forall pre e post,
    tr = pre ++ e :: post -> later e = true ->
    exists x, In x pre /\ first x = true.
Proof.
  induction tr as [|a tr IH]; intros O pre e post E L.
  - destruct pre; discriminate E.
  - destruct pre as [|b pre]; simpl in E; injection E as Ea Et; subst.
    + simpl in O. rewrite L in O. discriminate O.
    + simpl in O. destruct (later b); [discriminate O|].
      destruct (first b) eqn:F.
      * exists b. split; [left; reflexivity | exact F].
      * destruct (IH O pre e post eq_refl L) as (x & I & Fx).
        exists x. split; [right; exact I | exact Fx].
Qed.

Lemma sourceLoaded_inv (pre : Trace) :
  (exists x, In x pre /\ isSourceLoaded x = true) ->
  In (OnLoad SourceImg) pre.
Proof.
  intros (x & I & F). destruct x; try discriminate F.
  destruct el; try discriminate F. exact I.
Qed.

(** C7.  In every invocation, an assignment to [bgImage.src] (the start
    of the background decode) lies after the source image's [onload] in
    the trace, and happens only for background type [image] or
    [gradient].  Both revisions. *)
Theorem C7_background_decode_after_source_decode :
  (forall (imagePath : jsstring)
          (options : AutoProcess.AutoProcessOptions)
          (pre post : Trace) (url : jsstring),
      AutoProcess.processScreenshotWithDefaultBackground imagePath options
      = pre ++ SetSrc BackgroundImg url :: post ->
      In (OnLoad SourceImg) pre /\
      isImageOrGradient
        (AutoProcess.backgroundType (fst AutoProcess.loadSettings)) = true)
  /\
  (forall (imagePath : jsstring) (pre post : Trace) (url : jsstring),
      AutoProcessV1.processScreenshotWithDefaultBackground imagePath
      = pre ++ SetSrc BackgroundImg url :: post ->
      In (OnLoad SourceImg) pre /\
      isImageOrGradient
        (AutoProcessV1.backgroundType (fst AutoProcessV1.loadSettings))
      = true).
Proof.
  split.
  - intros imagePath options pre post url E. split.
    + apply sourceLoaded_inv.
      apply (orderedAfter_split isSourceLoaded (isSetSrc BackgroundImg)
               _ ) with (2 := E); [|reflexivity].
      rewrite run_unfold.
      destruct logged_cases as [(store & _ & ->)|(err & _ & ->)];
        simpl; crunch; reflexivity.
    + assert (I : In (SetSrc BackgroundImg url)
                    (AutoProcess.processScreenshotWithDefaultBackground
                       imagePath options))
        by (rewrite E; apply in_elt).
      rewrite run_unfold in I. apply in_app_or in I.
      destruct I as [I|I].
      * apply logged_console in I. discriminate I.
      * unfold_handlers.
        destruct (isImageOrGradient _); [reflexivity|].
        simpl in I. crunch; pick.
  - intros imagePath pre post url E. split.
    + apply sourceLoaded_inv.
      apply (orderedAfter_split isSourceLoaded (isSetSrc BackgroundImg)
               _ ) with (2 := E); [|reflexivity].
      rewrite runV1_unfold.
      destruct loggedV1_cases as [(store & _ & ->)|(err & _ & ->)];
        simpl; crunch; reflexivity.
    + assert (I : In (SetSrc BackgroundImg url)
                    (AutoProcessV1.processScreenshotWithDefaultBackground
                       imagePath))
        by (rewrite E; apply in_elt).
      rewrite runV1_unfold in I. apply in_app_or in I.
      destruct I as [I|I].
      * apply loggedV1_console in I. discriminate I.
      * unfold_handlers.
        destruct (isImageOrGradient _); [reflexivity|].
        simpl in I. crunch; pick.
Qed.

Lemma settled_logged (rest : Trace) :
  settled (snd AutoProcess.loadSettings ++ rest) = settled rest.
Proof.
  destruct logged_cases as [(store & _ & ->)|(err & _ & ->)]; reflexivity.
Qed.

Lemma settledV1_logged (rest : Trace) :
  settled (snd AutoProcessV1.loadSettings ++ rest) = settled rest.
Proof.
  destruct loggedV1_cases as [(store & _ & ->)|(err & _ & ->)];
    reflexivity.
Qed.

Ltac pick_logged :=
  repeat match goal with
    | H : In _ (snd AutoProcess.loadSettings ++ _) |- _ =>
        apply in_app_or in H; destruct H as [H|H];
        [apply logged_console in H; discriminate H|]
    | H : In _ (snd AutoProcessV1.loadSettings ++ _) |- _ =>
        apply in_app_or in H; destruct H as [H|H];
        [apply loggedV1_console in H; discriminate H|]
    end.

(** C6.  A stage that was started and failed ends the invocation: when
    the source image or the background image does not decode, when
    [toBlob] hands out no blob or when the reader fails, the promise is
    rejected with that stage's error (and so it is when the compositor or
    the footer appender throws); a rejected promise comes with no data
    URL; and no stage is started twice. *)
Theorem C6_stage_failure_is_terminal :
  forall (imagePath : jsstring) (options : AutoProcess.AutoProcessOptions),
    let tr :=
      AutoProcess.processScreenshotWithDefaultBackground
        imagePath options in
    (decode (convertFileSrc imagePath) = None ->
     settled tr =
     Rejected (mkError (lit "Failed to load image from: " ++ imagePath)))
    /\
    (forall url, In (SetSrc BackgroundImg url) tr -> decode url = None ->
                 settled tr =
                 Rejected (mkError (lit "Failed to load background image")))
    /\
    (forall c type quality,
        In (ToBlob c type quality) tr -> toBlob c type quality = None ->
        settled tr =
        Rejected (mkError (lit "Failed to create blob from canvas")))
    /\
    (forall blob, In (ReadAsDataURL blob) tr -> readFails blob = true ->
                  settled tr =
                  Rejected (mkError (lit "Failed to read processed image")))
    /\
    (forall opts thrown,
        In (CreateHighQualityCanvas opts) tr ->
        createHighQualityCanvas opts = inl thrown ->
        settled tr = Rejected thrown)
    /\
    (forall opts composite thrown,
        In (CreateHighQualityCanvas opts) tr ->
        createHighQualityCanvas opts = inr composite ->
        AutoProcess.applyForensicMetadata (fst AutoProcess.loadSettings)
          options composite = inl thrown ->
        settled tr = Rejected thrown)
    /\
    (forall reason, settled tr = Rejected reason ->
                    forall url, ~ In (Resolve (Some url)) tr)
    /\
    (attempts (isSetSrc SourceImg) tr = 1 /\
     attempts (isSetSrc BackgroundImg) tr <= 1 /\
     attempts isCompose tr <= 1 /\
     attempts isToBlob tr <= 1 /\
     attempts isRead tr <= 1)%nat.
Proof.
  intros imagePath options tr. subst tr. rewrite run_unfold.
  rewrite settled_logged.
  rewrite !attempts_logged by (apply console_not; auto 6).
  set (s := fst AutoProcess.loadSettings).
  repeat split.
  - intros D. rewrite D. reflexivity.
  - intros url I D. pick_logged. unfold_handlers. simpl in *.
    crunch; pick; try congruence.
  - intros c type quality I D. pick_logged. unfold_handlers. simpl in *.
    crunch; pick; try congruence.
  - intros blob I D. pick_logged. unfold_handlers. simpl in *.
    crunch; pick; try congruence.
  - intros opts thrown I D. pick_logged. unfold_handlers. simpl in *.
    crunch; pick; try congruence.
  - intros opts composite thrown I D F. pick_logged. unfold_handlers.
    simpl in *. crunch; pick; try congruence.
  - intros reason S url I. pick_logged. unfold_handlers. simpl in *.
    crunch; pick; try congruence.
  - unfold_handlers. unfold attempts. simpl. crunch; reflexivity.
  - unfold_handlers. unfold attempts. simpl. crunch; lia.
  - unfold_handlers. unfold attempts. simpl. crunch; lia.
  - unfold_handlers. unfold attempts. simpl. crunch; lia.
  - unfold_handlers. unfold attempts. simpl. crunch; lia.
Qed.

(** C8.  A fulfilled promise carries the data URL of a blob of type
    image/png: the final surface (the composite after the forensic step)
    was handed to [toBlob] with type "image/png" and quality 1.0, and the
    value is "data:image/png;base64," followed by the base64 text of the
    encoder's bytes. *)
Theorem C8_output_is_png_data_url :
  forall (imagePath : jsstring) (options : AutoProcess.AutoProcessOptions)
         (value : option jsstring),
    let tr :=
      AutoProcess.processScreenshotWithDefaultBackground
        imagePath options in
    settled tr = Fulfilled value ->
    exists opts composite outputCanvas bytes,
      createHighQualityCanvas opts = inr composite /\
      AutoProcess.applyForensicMetadata (fst AutoProcess.loadSettings)
        options composite = inr outputCanvas /\
      encode outputCanvas (lit "image/png") 1 = Some bytes /\
      value = Some (lit "data:image/png;base64," ++ base64 bytes) /\
      In (CreateHighQualityCanvas opts) tr /\
      In (ToBlob outputCanvas (lit "image/png") 1) tr.
Proof.
  intros imagePath options value tr S. subst tr.
  rewrite run_unfold in *. rewrite settled_logged in S.
  set (s := fst AutoProcess.loadSettings) in *.
  unfold_handlers. simpl in *.
  crunch;
    injection S as <-;
    match goal with
    | Hc : createHighQualityCanvas ?o = inr ?c,
      Hf : AutoProcess.applyForensicMetadata _ _ ?c = inr ?oc,
      He : encode ?oc _ _ = Some ?b |- _ =>
        exists o, c, oc, b;
        repeat split; try assumption; try reflexivity;
        apply in_or_app; right; simpl; auto 8
    end.
Qed.

(** C5.  When loading the settings store throws, the invocation goes on:
    one console message is logged first, the variables keep the defaults
    (background type [image], colour #667eea, the built-in default
    background path, forensic metadata off), the source decode is
    started, and with every later stage healthy the promise is fulfilled
    with the data URL of the composite over the default background.
    Both revisions. *)
Theorem C5_settings_failure_is_not_fatal :
  forall (err : Error) (imagePath : jsstring)
         (options : AutoProcess.AutoProcessOptions),
    loadStore (lit "settings.json") = inl err ->
    let warning :=
      ConsoleError
        (lit "Failed to load default background from settings:") err in
    let url := convertFileSrc imagePath in
    let tr :=
      AutoProcess.processScreenshotWithDefaultBackground
        imagePath options in
    let trV1 :=
      AutoProcessV1.processScreenshotWithDefaultBackground imagePath in
    (fst AutoProcess.loadSettings =
     AutoProcess.mkSettings image (lit "#667eea") getDefaultBackgroundPath
       false (lit "") (lit "") /\
     fst AutoProcessV1.loadSettings =
     AutoProcessV1.mkSettings image (lit "#667eea")
       getDefaultBackgroundPath)
    /\
    ((exists rest, tr = warning :: SetSrc SourceImg url :: rest) /\
     (exists rest, trV1 = warning :: SetSrc SourceImg url :: rest))
    /\
    (forall img bg composite bytes,
        decode url = Some img ->
        decode getDefaultBackgroundPath = Some bg ->
        createHighQualityCanvas
          (mkCanvasOptions img image (lit "#667eea")
             (Some getDefaultBackgroundPath) (Some bg) 0 20 18 100 None
             (mkShadow 33 18 23 39))
        = inr composite ->
        encode composite (lit "image/png") 1 = Some bytes ->
        readFails (mkBlob (lit "image/png") bytes) = false ->
        settled tr =
        Fulfilled (Some (lit "data:image/png;base64," ++ base64 bytes)) /\
        settled trV1 =
        Fulfilled (Some (lit "data:image/png;base64," ++ base64 bytes))).
Proof.
  intros err imagePath options L warning url tr trV1.
  subst warning url tr trV1.
  unfold AutoProcess.processScreenshotWithDefaultBackground,
    AutoProcessV1.processScreenshotWithDefaultBackground,
    AutoProcess.loadSettings, AutoProcessV1.loadSettings.
  rewrite L. simpl fst. split; [|split].
  - split; reflexivity.
  - split; eexists; reflexivity.
  - intros img bg composite bytes D Dbg K E Rd.
    rewrite D. unfold_handlers. simpl.
    rewrite Dbg. simpl.
    unfold AutoProcess.imageOptions, AutoProcessV1.imageOptions,
      defaultShadow. simpl.
    rewrite K. unfold AutoProcess.applyForensicMetadata. simpl.
    rewrite E. rewrite Rd. split; reflexivity.
Qed.

(** The two revisions read the same background settings. *)
Lemma settings_agree :
  snd AutoProcess.loadSettings = snd AutoProcessV1.loadSettings /\
  AutoProcess.backgroundType (fst AutoProcess.loadSettings)
  = AutoProcessV1.backgroundType (fst AutoProcessV1.loadSettings) /\
  AutoProcess.customColor (fst AutoProcess.loadSettings)
  = AutoProcessV1.customColor (fst AutoProcessV1.loadSettings) /\
  AutoProcess.defaultBgImage (fst AutoProcess.loadSettings)
  = AutoProcessV1.defaultBgImage (fst AutoProcessV1.loadSettings).
Proof.
  unfold AutoProcess.loadSettings, AutoProcessV1.loadSettings.
  destruct (loadStore _); simpl; auto.
Qed.

Lemma compose_agree (s : AutoProcess.Settings)
    (options : AutoProcess.AutoProcessOptions) (opts : CanvasOptions) :
  AutoProcess.forensicEnabled s = false ->
  AutoProcess.compose s options opts = AutoProcessV1.compose opts.
Proof.
  intros E. unfold AutoProcess.compose, AutoProcessV1.compose,
    AutoProcess.applyForensicMetadata.
  rewrite E. simpl. reflexivity.
Qed.

(** C10.  With forensic metadata disabled, and the same settings, source
    image and outcomes of every call, the revision with the forensic step
    runs through the same events as the revision without it, so both
    promises settle alike: the same data URL or the same error. *)
Theorem C10_revisions_agree_without_forensics :
  forall (imagePath : jsstring) (options : AutoProcess.AutoProcessOptions),
    AutoProcess.forensicEnabled (fst AutoProcess.loadSettings) = false ->
    AutoProcess.processScreenshotWithDefaultBackground imagePath options
    = AutoProcessV1.processScreenshotWithDefaultBackground imagePath
    /\
    settled
      (AutoProcess.processScreenshotWithDefaultBackground imagePath options)
    = settled
        (AutoProcessV1.processScreenshotWithDefaultBackground imagePath).
Proof.
  intros imagePath options E.
  assert (T : AutoProcess.processScreenshotWithDefaultBackground
                imagePath options
              = AutoProcessV1.processScreenshotWithDefaultBackground
                  imagePath).
  { rewrite run_unfold, runV1_unfold.
    destruct settings_agree as (Hl & Ht & Hc & Hb).
    rewrite Hl. do 2 f_equal.
    destruct (decode (convertFileSrc imagePath)) as [img|];
      [|reflexivity].
    f_equal.
    unfold AutoProcess.img_onload, AutoProcessV1.img_onload,
      AutoProcess.bgImage_onload, AutoProcessV1.bgImage_onload.
    unfold AutoProcess.imageOptions, AutoProcessV1.imageOptions,
      AutoProcess.plainOptions, AutoProcessV1.plainOptions.
    rewrite <- Ht, <- Hc, <- Hb.
    destruct (isImageOrGradient _).
    - f_equal. destruct (decode _) as [bg|]; [|reflexivity].
      f_equal. apply compose_agree. exact E.
    - apply compose_agree. exact E. }
  split; [exact T | rewrite T; reflexivity].
Qed.

End Orchestration.

Section StaleReference.
Context {W : Host} {C : Compositor}.
Variable lookup : jsstring -> option jsstring.
Variable builtin : jsstring.

Let registry : AssetRegistry := specAssetRegistry lookup builtin.
Local Existing Instance registry.

Lemma stale_reference_settings (store : Store) (reference : jsstring) :
  loadStore (lit "settings.json") = inr store ->
  defaultBackgroundImage store = Some reference ->
  lookup reference = None ->
  snd AutoProcess.loadSettings = [] /\
  AutoProcess.defaultBgImage (fst AutoProcess.loadSettings) = builtin.
Proof.
  intros L S U. unfold AutoProcess.loadSettings. rewrite L. simpl.
  rewrite S. split; [reflexivity|].
  destruct (truthy reference && _); [|reflexivity].
  simpl. rewrite U. reflexivity.
Qed.

(** C4.  With background type [image] or [gradient] and a stored
    reference the registry cannot resolve, the background decode is
    started once, on the built-in default reference, and nothing is
    logged; the background's [onerror] (the background-load error) fires
    exactly when the default itself does not decode; and with the default
    decoded and every later stage healthy the promise is fulfilled. *)
Theorem C4_stale_reference_falls_back :
  forall (store : Store) (reference imagePath : jsstring)
         (options : AutoProcess.AutoProcessOptions) (img : Image),
    loadStore (lit "settings.json") = inr store ->
    isImageOrGradient
      (AutoProcess.backgroundType (fst AutoProcess.loadSettings)) = true ->
    defaultBackgroundImage store = Some reference ->
    lookup reference = None ->
    decode (convertFileSrc imagePath) = Some img ->
    let s := fst AutoProcess.loadSettings in
    let tr :=
      AutoProcess.processScreenshotWithDefaultBackground
        imagePath options in
    filter (isSetSrc BackgroundImg) tr = [SetSrc BackgroundImg builtin]
    /\
    attempts isConsole tr = 0%nat
    /\
    (In (OnError BackgroundImg) tr <-> decode builtin = None)
    /\
    (forall bg composite outputCanvas bytes,
        decode builtin = Some bg ->
        createHighQualityCanvas (AutoProcess.imageOptions s img bg)
        = inr composite ->
        AutoProcess.applyForensicMetadata s options composite
        = inr outputCanvas ->
        encode outputCanvas (lit "image/png") 1 = Some bytes ->
        readFails (mkBlob (lit "image/png") bytes) = false ->
        settled tr =
        Fulfilled (Some (lit "data:image/png;base64," ++ base64 bytes))).
Proof.
  intros store reference imagePath options img L T S U D s tr.
  subst s tr. rewrite run_unfold.
  destruct (stale_reference_settings store reference L S U) as [Hl Hb].
  rewrite Hl, D. simpl app.
  unfold AutoProcess.img_onload. rewrite T, Hb.
  unfold attempts.
  repeat split.
  - unfold_handlers. simpl. crunch; reflexivity.
  - unfold_handlers. simpl. crunch; reflexivity.
  - intros I. unfold_handlers. simpl in I.
    destruct (decode builtin); [|reflexivity].
    crunch; pick.
  - intros N. rewrite N. simpl. auto.
  - intros bg composite outputCanvas bytes Dbg K F E Rd.
    rewrite Dbg. unfold_handlers. simpl.
    rewrite K, F. simpl. rewrite E, Rd. reflexivity.
Qed.

End StaleReference.

(* ================================================================== *)
(** ** The statements on the test bench *)

Ltac here := repeat first [left; reflexivity | right].

Lemma C1_transparent_padding_and_shadow_witness :
  let W := Bench.host
             (inr (Bench.storeWith transparent (Some (lit "mesh-1")) false
                     (lit "") (lit "")))
             false in
  let s := fst (AutoProcess.loadSettings (W := W) (R := Bench.registry)) in
  let opts := AutoProcess.plainOptions s Bench.shot in
  CanvasUtils.padding opts = 0 /\
  CanvasUtils.shadow opts = mkShadow 0 0 0 0 /\
  attempts isCompose
    (AutoProcess.processScreenshotWithDefaultBackground
       (W := W) (R := Bench.registry) (C := Bench.compositor)
       (lit "shot.png") Bench.options) = 1%nat.
Proof.
  intros W s opts.
  destruct (proj1 (C1_transparent_padding_and_shadow
                     (W := W) (R := Bench.registry) (C := Bench.compositor))
              (lit "shot.png") Bench.options eq_refl) as [Hall Hone].
  destruct (Hall opts) as [Hp Hs]; [vm_compute; here|].
  split; [exact Hp|]. split; [exact Hs|].
  apply (Hone Bench.shot). reflexivity.
Defined.

Lemma C4_stale_reference_falls_back_witness :
  let W := Bench.host
             (inr (Bench.storeWith image (Some (lit "gone-7")) false
                     (lit "") (lit "")))
             false in
  settled
    (AutoProcess.processScreenshotWithDefaultBackground
       (W := W)
       (R := specAssetRegistry Bench.lookup (lit "/bg/default.jpg"))
       (C := Bench.compositor)
       (lit "shot.png") Bench.options)
  = Fulfilled (Some (lit "data:image/png;base64," ++ [1000%N; 800%N])).
Proof.
  intros W.
  pose proof (C4_stale_reference_falls_back
                (W := W) (C := Bench.compositor)
                Bench.lookup (lit "/bg/default.jpg")
                (Bench.storeWith image (Some (lit "gone-7")) false
                   (lit "") (lit ""))
                (lit "gone-7") (lit "shot.png") Bench.options Bench.shot
                eq_refl eq_refl eq_refl eq_refl eq_refl)
    as (_ & _ & _ & Hok).
  exact (Hok Bench.wallpaper (mkCanvas 1000 800 [Pixels []])
           (mkCanvas 1000 800 [Pixels []]) [1000%N; 800%N]
           eq_refl eq_refl eq_refl eq_refl eq_refl).
Defined.

Lemma C5_settings_failure_is_not_fatal_witness :
  let W := Bench.host (inl (mkError (lit "corrupt settings.json")))
             false in
  settled
    (AutoProcess.processScreenshotWithDefaultBackground
       (W := W) (R := Bench.registry) (C := Bench.compositor)
       (lit "shot.png") Bench.options)
  = Fulfilled (Some (lit "data:image/png;base64," ++ [1000%N; 800%N])).
Proof.
  intros W.
  pose proof (C5_settings_failure_is_not_fatal
                (W := W) (R := Bench.registry) (C := Bench.compositor)
                (mkError (lit "corrupt settings.json"))
                (lit "shot.png") Bench.options eq_refl)
    as (_ & _ & Hok).
  exact (proj1 (Hok Bench.shot Bench.wallpaper
                  (mkCanvas 1000 800 [Pixels []]) [1000%N; 800%N]
                  eq_refl eq_refl eq_refl eq_refl eq_refl)).
Defined.

Lemma C6_stage_failure_is_terminal_witness :
  let W := Bench.host (inl (mkError (lit "corrupt settings.json")))
             false in
  settled
    (AutoProcess.processScreenshotWithDefaultBackground
       (W := W) (R := Bench.registry) (C := Bench.compositor)
       (lit "missing.png") Bench.options)
  = Rejected (mkError (lit "Failed to load image from: missing.png")).
Proof.
  intros W.
  exact (proj1 (C6_stage_failure_is_terminal
                  (W := W) (R := Bench.registry) (C := Bench.compositor)
                  (lit "missing.png") Bench.options) eq_refl).
Defined.

Lemma C7_background_decode_after_source_decode_witness :
  let W := Bench.host
             (inr (Bench.storeWith gradient (Some (lit "mesh-1")) false
                     (lit "") (lit "")))
             false in
  In (OnLoad SourceImg)
    [SetSrc SourceImg (lit "asset://shot.png"); OnLoad SourceImg] /\
  isImageOrGradient
    (AutoProcess.backgroundType
       (fst (AutoProcess.loadSettings (W := W) (R := Bench.registry))))
  = true.
Proof.
  intros W.
  exact (proj1 (C7_background_decode_after_source_decode
                  (W := W) (R := Bench.registry) (C := Bench.compositor))
           (lit "shot.png") Bench.options
           [SetSrc SourceImg (lit "asset://shot.png"); OnLoad SourceImg]
           [OnError BackgroundImg;
            Reject (mkError (lit "Failed to load background image"))]
           (lit "/bg/mesh-1.jpg") eq_refl).
Defined.

Lemma C8_output_is_png_data_url_witness :
  let W := Bench.host
             (inr (Bench.storeWith custom None true (lit "security")
                     (lit "")))
             false in
  exists opts composite outputCanvas bytes,
    createHighQualityCanvas (Compositor := Bench.compositor) opts
    = inr composite /\
    AutoProcess.applyForensicMetadata (W := W)
      (fst (AutoProcess.loadSettings (W := W) (R := Bench.registry)))
      Bench.options composite = inr outputCanvas /\
    encode (Host := W) outputCanvas (lit "image/png") 1 = Some bytes /\
    Some (lit "data:image/png;base64," ++ [1000%N; 864%N])
    = Some (lit "data:image/png;base64," ++ base64 (Host := W) bytes) /\
    In (CreateHighQualityCanvas opts)
      (AutoProcess.processScreenshotWithDefaultBackground
         (W := W) (R := Bench.registry) (C := Bench.compositor)
         (lit "shot.png") Bench.options) /\
    In (ToBlob outputCanvas (lit "image/png") 1)
      (AutoProcess.processScreenshotWithDefaultBackground
         (W := W) (R := Bench.registry) (C := Bench.compositor)
         (lit "shot.png") Bench.options).
Proof.
  intros W.
  exact (C8_output_is_png_data_url
           (W := W) (R := Bench.registry) (C := Bench.compositor)
           (lit "shot.png") Bench.options
           (Some (lit "data:image/png;base64," ++ [1000%N; 864%N]))
           eq_refl).
Defined.

Lemma C9_fixed_composition_parameters_witness :
  let run := fun store =>
    AutoProcess.processScreenshotWithDefaultBackground
      (W := Bench.host (inr store) false)
      (R := Bench.registry) (C := Bench.compositor)
      (lit "shot.png") Bench.options in
  let called := fun store =>
    attempts isCompose (run store) = 1%nat /\
    exists opts,
      In (CreateHighQualityCanvas opts) (run store) /\
      CanvasUtils.image opts = Bench.shot /\
      CanvasUtils.backgroundType opts
      = AutoProcess.backgroundType
          (fst (AutoProcess.loadSettings
                  (W := Bench.host (inr store) false)
                  (R := Bench.registry))) /\
      compositionParameters opts = (100, 18, 20, 0, mkShadow 33 18 23 39) in
  called (Bench.storeWith image None false (lit "") (lit "")) /\
  called (Bench.storeWith gradient None false (lit "") (lit "")) /\
  called (Bench.storeWith custom None false (lit "") (lit "")) /\
  compositionParameters
    (AutoProcess.imageOptions
       (fst (AutoProcess.loadSettings
               (W := Bench.host
                       (inr (Bench.storeWith image None false (lit "")
                               (lit "")))
                       false)
               (R := Bench.registry)))
       Bench.shot Bench.wallpaper)
  = (100, 18, 20, 0, mkShadow 33 18 23 39).
Proof.
  intros run called. subst run called. cbv beta.
  split; [|split; [|split]].
  - apply (proj1 (proj2 (proj2
             (C9_fixed_composition_parameters
                (W := Bench.host
                        (inr (Bench.storeWith image None false (lit "")
                                (lit "")))
                        false)
                (R := Bench.registry) (C := Bench.compositor))))
             (lit "shot.png") Bench.options Bench.shot).
    + simpl. discriminate.
    + reflexivity.
    + intros _. vm_compute. discriminate.
  - apply (proj1 (proj2 (proj2
             (C9_fixed_composition_parameters
                (W := Bench.host
                        (inr (Bench.storeWith gradient None false (lit "")
                                (lit "")))
                        false)
                (R := Bench.registry) (C := Bench.compositor))))
             (lit "shot.png") Bench.options Bench.shot).
    + simpl. discriminate.
    + reflexivity.
    + intros _. vm_compute. discriminate.
  - apply (proj1 (proj2 (proj2
             (C9_fixed_composition_parameters
                (W := Bench.host
                        (inr (Bench.storeWith custom None false (lit "")
                                (lit "")))
                        false)
                (R := Bench.registry) (C := Bench.compositor))))
             (lit "shot.png") Bench.options Bench.shot).
    + simpl. discriminate.
    + reflexivity.
    + intros G. vm_compute in G. discriminate G.
  - refine (proj2 (proj1 (C9_fixed_composition_parameters
                            (W := Bench.host
                                    (inr (Bench.storeWith image None false
                                            (lit "") (lit "")))
                                    false)
                            (R := Bench.registry) (C := Bench.compositor))
                     (lit "shot.png") Bench.options
                     (AutoProcess.imageOptions _ Bench.shot Bench.wallpaper)
                     _) _).
    + vm_compute. here.
    + simpl. discriminate.
Defined.

Lemma C10_revisions_agree_without_forensics_witness :
  let W := Bench.host
             (inr (Bench.storeWith image None false (lit "ops") (lit "amy")))
             false in
  AutoProcess.processScreenshotWithDefaultBackground
    (W := W) (R := Bench.registry) (C := Bench.compositor)
    (lit "shot.png") Bench.options
  = AutoProcessV1.processScreenshotWithDefaultBackground
      (W := W) (R := Bench.registry) (C := Bench.compositor)
      (lit "shot.png").
Proof.
  intros W.
  exact (proj1 (C10_revisions_agree_without_forensics
                  (W := W) (R := Bench.registry) (C := Bench.compositor)
                  (lit "shot.png") Bench.options eq_refl)).
Defined.

(* ================================================================== *)
(** ** More about the footer and the label *)

Lemma trimStart_white (p s : jsstring) :
  allWhiteSpace p = true -> trimStart (p ++ s) = trimStart s.
Proof.
  induction p as [|c p IH]; simpl; [reflexivity|].
  intros A. apply andb_true_iff in A. destruct A as [Hc Hp].
  rewrite Hc. auto.
Qed.

Lemma trimStart_all_white (p : jsstring) :
  allWhiteSpace p = true -> trimStart p = [].
Proof.
  intros A. rewrite <- (app_nil_r p). rewrite trimStart_white; auto.
Qed.

(** What [trimStart] leaves is empty or starts with a character that is
    not white space. *)
Lemma trimStart_head (s : jsstring) :
  trimStart s = [] \/
  exists c t, trimStart s = c :: t /\ isWhiteSpace c = false.
Proof.
  induction s as [|c s IH]; simpl; [left; reflexivity|].
  destruct (isWhiteSpace c) eqn:Hc; [exact IH|].
  right. exists c, s. auto.
Qed.

Lemma trimStart_empty_white (s : jsstring) :
  trimStart s = [] -> allWhiteSpace s = true.
Proof.
  induction s as [|c s IH]; simpl; [reflexivity|].
  destruct (isWhiteSpace c); [exact IH | discriminate].
Qed.

Lemma trimStart_app_keep (s q : jsstring) :
  trimStart s <> [] -> trimStart (s ++ q) = trimStart s ++ q.
Proof.
  induction s as [|c s IH]; simpl; [congruence|].
  destruct (isWhiteSpace c); auto.
Qed.

Lemma allWhiteSpace_rev (s : jsstring) :
  allWhiteSpace (rev s) = allWhiteSpace s.
Proof.
  unfold allWhiteSpace. induction s as [|c s IH]; simpl; [reflexivity|].
  rewrite forallb_app, IH. simpl. rewrite andb_true_r. apply andb_comm.
Qed.

Lemma trimEnd_white (s q : jsstring) :
  allWhiteSpace q = true -> trimEnd (s ++ q) = trimEnd s.
Proof.
  intros A. unfold trimEnd. rewrite rev_app_distr.
  rewrite trimStart_white; [reflexivity|].
  rewrite allWhiteSpace_rev. exact A.
Qed.

Lemma trimEnd_cons (c : N) (s : jsstring) :
  isWhiteSpace c = false -> trimEnd (c :: s) = c :: trimEnd s.
Proof.
  intros Hc. unfold trimEnd. simpl rev.
  destruct (trimStart_head (rev s)) as [E|(d & t & E & _)].
  - rewrite trimStart_white by (apply trimStart_empty_white; exact E).
    simpl. rewrite Hc, E. reflexivity.
  - rewrite trimStart_app_keep by (rewrite E; discriminate).
    rewrite rev_app_distr. reflexivity.
Qed.

Lemma trimStart_idem (s : jsstring) : trimStart (trimStart s) = trimStart s.
Proof.
  destruct (trimStart_head s) as [E|(c & t & E & Hc)]; rewrite E; simpl.
  - reflexivity.
  - rewrite Hc. reflexivity.
Qed.

Lemma trimEnd_idem (s : jsstring) : trimEnd (trimEnd s) = trimEnd s.
Proof.
  unfold trimEnd. rewrite rev_involutive, trimStart_idem. reflexivity.
Qed.

Lemma trim_idem (s : jsstring) : trim (trim s) = trim s.
Proof.
  unfold trim.
  destruct (trimStart_head s) as [E|(c & t & E & Hc)]; rewrite E.
  - reflexivity.
  - rewrite (trimEnd_cons c t Hc). simpl trimStart. rewrite Hc.
    rewrite (trimEnd_cons c _ Hc), trimEnd_idem. reflexivity.
Qed.

Lemma trim_padding (p s q : jsstring) :
  allWhiteSpace p = true -> allWhiteSpace q = true ->
  trim (p ++ s ++ q) = trim s.
Proof.
  intros Hp Hq. unfold trim. rewrite trimStart_white by exact Hp.
  destruct (trimStart_head s) as [E|(c & t & E & Hc)].
  - rewrite trimStart_white by (apply trimStart_empty_white; exact E).
    rewrite E, (trimStart_all_white q Hq). reflexivity.
  - rewrite trimStart_app_keep by (rewrite E; discriminate).
    apply trimEnd_white. exact Hq.
Qed.

(** What [trim] leaves neither starts nor ends with white space. *)
Lemma trim_ends (s : jsstring) :
  trimStart (trim s) = trim s /\ trimEnd (trim s) = trim s.
Proof.
  split.
  - unfold trim.
    destruct (trimStart_head s) as [E|(c & t & E & Hc)]; rewrite E.
    + reflexivity.
    + rewrite (trimEnd_cons c t Hc). simpl. rewrite Hc. reflexivity.
  - unfold trim. apply trimEnd_idem.
Qed.

Lemma renderedComponent_padding (p s q : jsstring) :
  allWhiteSpace p = true -> allWhiteSpace q = true ->
  renderedComponent (p ++ s ++ q) = renderedComponent s.
Proof.
  intros Hp Hq. unfold renderedComponent, blank.
  rewrite (trim_padding p s q Hp Hq). reflexivity.
Qed.

Lemma renderedComponent_shape (s : jsstring) :
  renderedComponent s <> [] /\
  trim (renderedComponent s) = renderedComponent s.
Proof.
  unfold renderedComponent, blank.
  destruct (trim s) as [|c t] eqn:E; simpl.
  - split; [discriminate | reflexivity].
  - split; [discriminate|]. rewrite <- E. apply trim_idem.
Qed.

(** X1.  White space around the configured team or user never shows in
    the label: padding either of them with white space on both sides
    gives the same label. *)
Theorem X1_label_ignores_surrounding_white_space :
  forall (p1 q1 p2 q2 team user : jsstring),
    allWhiteSpace p1 = true -> allWhiteSpace q1 = true ->
    allWhiteSpace p2 = true -> allWhiteSpace q2 = true ->
    AutoProcess.buildUserLabel (p1 ++ team ++ q1) (p2 ++ user ++ q2)
    = AutoProcess.buildUserLabel team user.
Proof.
  intros p1 q1 p2 q2 team user H1 H2 H3 H4.
  unfold AutoProcess.buildUserLabel. rewrite !or_else_trim.
  rewrite (renderedComponent_padding p1 team q1 H1 H2).
  rewrite (renderedComponent_padding p2 user q2 H3 H4).
  reflexivity.
Qed.

(** X2.  The label always has the form a/b with a and b non-empty and
    free of leading and trailing white space, whatever is configured;
    a configuration of white space only gives unknown/unknown. *)
Theorem X2_label_components_are_never_empty :
  forall (team user : jsstring),
    (exists a b,
        AutoProcess.buildUserLabel team user = a ++ lit "/" ++ b /\
        a <> [] /\ b <> [] /\ trim a = a /\ trim b = b)
    /\
    (allWhiteSpace team = true -> allWhiteSpace user = true ->
     AutoProcess.buildUserLabel team user = lit "unknown/unknown").
Proof.
  intros team user. split.
  - exists (renderedComponent team), (renderedComponent user).
    unfold AutoProcess.buildUserLabel. rewrite !or_else_trim.
    destruct (renderedComponent_shape team) as [Ha Ta].
    destruct (renderedComponent_shape user) as [Hb Tb].
    auto.
  - intros Wt Wu. unfold AutoProcess.buildUserLabel, trim.
    rewrite (trimStart_all_white team Wt), (trimStart_all_white user Wu).
    reflexivity.
Qed.

Lemma appendForensicMetadata_first (gc : Canvas -> bool) (src out : Canvas)
    (opts : ForensicMetadataOptions) :
  appendForensicMetadata gc src opts = inr out ->
  hd_error (painted out) = Some (DrawCanvas src 0 0 true (lit "high")).
Proof.
  unfold appendForensicMetadata.
  destruct (gc _); simpl; [|discriminate].
  intros E; injection E as <-. reflexivity.
Qed.

(** X3.  The footer never draws over the screenshot.  What
    [appendForensicMetadata] paints is exactly: the composite, unscaled,
    at the origin; a band over the full width that covers the rows added
    below the composite and nothing else; a horizontal line of width 1
    from the left to the right edge whose upper edge is the seam and whose
    lower edge is one row below it; and two lines of text at x = 24 with
    baseline [top], the first at least 12 rows below the seam, the second
    a line height or more below the first and ending, with its 18 rows,
    at least 12 rows above the bottom. *)
Theorem X3_footer_stays_below_the_composite :
  forall (gc : Canvas -> bool) (src out : Canvas)
         (opts : ForensicMetadataOptions),
    appendForensicMetadata gc src opts = inr out ->
    exists (bandColour lineColour textColour fnt text1 text2 : jsstring)
           (seam : Q) (y1 y2 : Z),
      painted out =
      [DrawCanvas src 0 0 true (lit "high");
       FillRect 0 (height src) (width out) (height out - height src)
         bandColour;
       Stroke [(0%Q, seam); (inject_Z (width out), seam)] lineColour 1;
       FillText text1 24 y1 textColour (lit "top") fnt;
       FillText text2 24 y2 textColour (lit "top") fnt]
      /\
      (seam - (1 # 2) == inject_Z (height src))%Q /\
      (seam + (1 # 2) == inject_Z (height src) + 1)%Q /\
      height src + 12 <= y1 /\
      y1 + lineHeight <= y2 /\
      y2 + lineHeight <= height out - 12.
Proof.
  intros gc src out opts E.
  unfold appendForensicMetadata in E.
  destruct (gc _); simpl in E; [|discriminate].
  injection E as <-. simpl painted. simpl height. simpl width.
  exists (lit "#f8fafc"), (lit "#e2e8f0"), (lit "#0f172a"),
    (ofInt fontSize ++ lit "px " ++ FONT_FAMILY),
    (lit "UTC: " ++ ForensicMetadata.timestampUtc opts),
    (lit "User: " ++ ForensicMetadata.userLabel opts),
    (inject_Z (height src) + (1 # 2))%Q,
    (height src + footerPaddingY),
    (height src + footerPaddingY + lineHeight + lineGap).
  split; [|split; [|split; [|split; [|split]]]].
  - replace (height src + footerHeight - height src) with footerHeight
      by lia.
    reflexivity.
  - ring.
  - ring.
  - unfold footerPaddingY. lia.
  - unfold lineGap. lia.
  - unfold footerHeight, footerPaddingY, lineHeight, lineGap. lia.
Qed.

(* ================================================================== *)
(** ** More about the orchestrator *)

Section Invocation.
Context {W : Host} {R : AssetRegistry} {C : Compositor}.

Ltac skip_logged :=
  repeat match goal with
    | H : In _ (snd AutoProcess.loadSettings ++ _) |- _ =>
        apply in_app_or in H; destruct H as [H|H];
        [apply logged_console in H; discriminate H|]
    | H : In _ (snd AutoProcessV1.loadSettings ++ _) |- _ =>
        apply in_app_or in H; destruct H as [H|H];
        [apply loggedV1_console in H; discriminate H|]
    end.

(** X4.  The promise stays pending exactly when one of the two calls
    outside every [try] throws, [getDefaultBackgroundPath()] or
    [convertFileSrc(imagePath)]; then no decode is started either.  When
    both return, and every decode, [toBlob] and read that is started calls
    back, no path through the handlers ends without a call of [resolve] or
    [reject].  Both revisions. *)
Theorem X4_promise_settles_unless_a_call_outside_try_throws :
  forall (defaultPathThrows convertThrows : bool) (imagePath : jsstring)
         (options : AutoProcess.AutoProcessOptions),
    let tr := executor defaultPathThrows convertThrows imagePath options in
    let trV1 := executorV1 defaultPathThrows convertThrows imagePath in
    (settled tr = Pending <->
     defaultPathThrows = true \/ convertThrows = true)
    /\
    (settled trV1 = Pending <->
     defaultPathThrows = true \/ convertThrows = true)
    /\
    (defaultPathThrows = true \/ convertThrows = true ->
     attempts (isSetSrc SourceImg) tr = 0%nat /\
     attempts (isSetSrc SourceImg) trV1 = 0%nat)
    /\
    (defaultPathThrows = false -> convertThrows = false ->
     attempts (isSetSrc SourceImg) tr = 1%nat /\
     attempts (isSetSrc SourceImg) trV1 = 1%nat).
Proof.
  intros d c imagePath options tr trV1. subst tr trV1.
  assert (S2 : settled
                 (AutoProcess.processScreenshotWithDefaultBackground
                    imagePath options) <> Pending).
  { rewrite run_unfold, settled_logged. unfold_handlers. simpl.
    crunch; discriminate. }
  assert (S1 : settled
                 (AutoProcessV1.processScreenshotWithDefaultBackground
                    imagePath) <> Pending).
  { rewrite runV1_unfold, settledV1_logged. unfold_handlers. simpl.
    crunch; discriminate. }
  assert (L2 : settled (snd AutoProcess.loadSettings) = Pending).
  { rewrite <- (app_nil_r (snd AutoProcess.loadSettings)).
    apply settled_logged. }
  assert (L1 : settled (snd AutoProcessV1.loadSettings) = Pending).
  { rewrite <- (app_nil_r (snd AutoProcessV1.loadSettings)).
    apply settledV1_logged. }
  assert (A2 : attempts (isSetSrc SourceImg) (snd AutoProcess.loadSettings)
               = 0%nat).
  { rewrite <- (app_nil_r (snd AutoProcess.loadSettings)).
    apply attempts_logged, console_not. auto. }
  assert (A1 : attempts (isSetSrc SourceImg) (snd AutoProcessV1.loadSettings)
               = 0%nat).
  { rewrite <- (app_nil_r (snd AutoProcessV1.loadSettings)).
    apply attemptsV1_logged, console_not. auto. }
  unfold executor, executorV1.
  split; [|split; [|split]].
  - destruct d, c; simpl; split; intros H; auto;
      try (destruct H; discriminate); contradiction.
  - destruct d, c; simpl; split; intros H; auto;
      try (destruct H; discriminate); contradiction.
  - intros [E|E]; subst; [|destruct d]; simpl; auto.
  - intros E1 E2. subst. simpl. split.
    + rewrite run_unfold.
      rewrite attempts_logged by (apply console_not; auto).
      unfold_handlers. unfold attempts. simpl. crunch; reflexivity.
    + rewrite runV1_unfold.
      rewrite attemptsV1_logged by (apply console_not; auto).
      unfold_handlers. unfold attempts. simpl. crunch; reflexivity.
Qed.

(** X5.  A failed stage stops everything after it: after a decode error
    the compositor, the encoder and the reader are never called (and a
    failed source decode starts no background decode); after a throw of
    the compositor or of the footer appender nothing is encoded; and
    without a blob nothing is read. *)
Theorem X5_nothing_runs_after_a_failed_stage :
  forall (imagePath : jsstring) (options : AutoProcess.AutoProcessOptions),
    let tr :=
      AutoProcess.processScreenshotWithDefaultBackground imagePath options in
    (In (OnError SourceImg) tr ->
     attempts (isSetSrc BackgroundImg) tr = 0 /\
     attempts isCompose tr = 0 /\ attempts isToBlob tr = 0 /\
     attempts isRead tr = 0)%nat
    /\
    (In (OnError BackgroundImg) tr ->
     attempts isCompose tr = 0 /\ attempts isToBlob tr = 0 /\
     attempts isRead tr = 0)%nat
    /\
    (forall opts thrown,
        In (CreateHighQualityCanvas opts) tr ->
        createHighQualityCanvas opts = inl thrown ->
        attempts isToBlob tr = 0 /\ attempts isRead tr = 0)%nat
    /\
    (forall opts composite thrown,
        In (CreateHighQualityCanvas opts) tr ->
        createHighQualityCanvas opts = inr composite ->
        AutoProcess.applyForensicMetadata (fst AutoProcess.loadSettings)
          options composite = inl thrown ->
        attempts isToBlob tr = 0 /\ attempts isRead tr = 0)%nat
    /\
    (forall c type quality,
        In (ToBlob c type quality) tr -> toBlob c type quality = None ->
        attempts isRead tr = 0%nat).
Proof.
  intros imagePath options tr. subst tr. rewrite run_unfold.
  rewrite !attempts_logged by (apply console_not; auto 6).
  set (s := fst AutoProcess.loadSettings).
  split; [|split; [|split; [|split]]].
  - intros I. skip_logged. unfold_handlers. unfold attempts. simpl in *.
    crunch; pick; auto.
  - intros I. skip_logged. unfold_handlers. unfold attempts. simpl in *.
    crunch; pick; auto.
  - intros opts thrown I K. skip_logged. unfold_handlers. unfold attempts.
    simpl in *. crunch; pick; try congruence; auto.
  - intros opts composite thrown I K F. skip_logged. unfold_handlers.
    unfold attempts. simpl in *. crunch; pick; try congruence; auto.
  - intros c type quality I K. skip_logged. unfold_handlers.
    unfold attempts. simpl in *. crunch; pick; try congruence; auto.
Qed.

(** X6.  What the compositor is handed: the decoded source image, the
    resolved type and colour, and the decoded background as [bgImage]
    (with its path as [selectedImage]) for type [image], as
    [gradientImage] for type [gradient], never as both; for every other
    type none of the three, and no background decode is started. *)
Theorem X6_background_reaches_the_compositor_by_type :
  forall (imagePath : jsstring) (options : AutoProcess.AutoProcessOptions)
         (opts : CanvasOptions),
    let s := fst AutoProcess.loadSettings in
    let tr :=
      AutoProcess.processScreenshotWithDefaultBackground imagePath options in
    In (CreateHighQualityCanvas opts) tr ->
    decode (convertFileSrc imagePath) = Some (CanvasUtils.image opts) /\
    CanvasUtils.backgroundType opts = AutoProcess.backgroundType s /\
    CanvasUtils.customColor opts = AutoProcess.customColor s /\
    match AutoProcess.backgroundType s with
    | image =>
        CanvasUtils.selectedImage opts = Some (AutoProcess.defaultBgImage s)
        /\ CanvasUtils.gradientImage opts = None
        /\ CanvasUtils.bgImage opts = decode (AutoProcess.defaultBgImage s)
        /\ CanvasUtils.bgImage opts <> None
    | gradient =>
        CanvasUtils.selectedImage opts = None
        /\ CanvasUtils.bgImage opts = None
        /\ CanvasUtils.gradientImage opts
           = decode (AutoProcess.defaultBgImage s)
        /\ CanvasUtils.gradientImage opts <> None
    | _ =>
        CanvasUtils.selectedImage opts = None
        /\ CanvasUtils.bgImage opts = None
        /\ CanvasUtils.gradientImage opts = None
        /\ attempts (isSetSrc BackgroundImg) tr = 0%nat
    end.
Proof.
  intros imagePath options opts s tr I. subst tr. rewrite run_unfold in *.
  rewrite ?attempts_logged by (apply console_not; auto 6).
  skip_logged. fold s in I |- *. unfold_handlers. unfold attempts.
  destruct (AutoProcess.backgroundType s) eqn:T; simpl in *;
    crunch; pick; simpl; rewrite ?T; simpl;
    repeat split; auto; try congruence; try discriminate.
Qed.

(** A fulfilled promise comes from one compositor call whose result went
    through the forensic step and the encoder. *)
Lemma fulfilled_inversion (imagePath : jsstring)
    (options : AutoProcess.AutoProcessOptions) (value : option jsstring) :
  settled
    (AutoProcess.processScreenshotWithDefaultBackground imagePath options)
  = Fulfilled value ->
  exists opts composite outputCanvas bytes,
    In (CreateHighQualityCanvas opts)
      (AutoProcess.processScreenshotWithDefaultBackground imagePath options)
    /\
    createHighQualityCanvas opts = inr composite /\
    AutoProcess.applyForensicMetadata (fst AutoProcess.loadSettings)
      options composite = inr outputCanvas /\
    encode outputCanvas (lit "image/png") 1 = Some bytes /\
    value = Some (lit "data:image/png;base64," ++ base64 bytes).
Proof.
  intros S. rewrite run_unfold in *. rewrite settled_logged in S.
  set (s := fst AutoProcess.loadSettings) in *.
  unfold_handlers. simpl in *.
  crunch;
    injection S as <-;
    match goal with
    | Hc : createHighQualityCanvas ?o = inr ?c,
      Hf : AutoProcess.applyForensicMetadata _ _ ?c = inr ?oc,
      He : encode ?oc _ _ = Some ?b |- _ =>
        exists o, c, oc, b;
        split; [apply in_or_app; right; simpl; auto 8|];
        repeat split; try assumption; reflexivity
    end.
Qed.

(** X7.  With forensic metadata enabled, a fulfilled promise carries the
    encoding of a canvas that is as wide as the compositor's result and 64
    rows higher, starts with that result drawn at the origin and carries
    the two footer lines; with forensic metadata disabled it carries the
    encoding of the compositor's result itself. *)
Theorem X7_fulfilled_value_encodes_composite_and_footer :
  forall (imagePath : jsstring) (options : AutoProcess.AutoProcessOptions)
         (value : option jsstring),
    let s := fst AutoProcess.loadSettings in
    let tr :=
      AutoProcess.processScreenshotWithDefaultBackground imagePath options in
    settled tr = Fulfilled value ->
    exists opts composite outputCanvas bytes,
      In (CreateHighQualityCanvas opts) tr /\
      createHighQualityCanvas opts = inr composite /\
      encode outputCanvas (lit "image/png") 1 = Some bytes /\
      value = Some (lit "data:image/png;base64," ++ base64 bytes) /\
      (AutoProcess.forensicEnabled s = false -> outputCanvas = composite) /\
      (AutoProcess.forensicEnabled s = true ->
       width outputCanvas = width composite /\
       height outputCanvas = height composite + 64 /\
       hd_error (painted outputCanvas)
       = Some (DrawCanvas composite 0 0 true (lit "high")) /\
       texts outputCanvas =
       footerLines (height composite)
         (match AutoProcess.timestampUtc options with
          | Some t => t
          | None => now
          end)
         (lit "User: "
          ++ AutoProcess.buildUserLabel (AutoProcess.forensicTeam s)
               (AutoProcess.forensicUser s))).
Proof.
  intros imagePath options value s tr S. subst tr.
  destruct (fulfilled_inversion imagePath options value S)
    as (opts & composite & out & bytes & I & K & F & E & V).
  exists opts, composite, out, bytes.
  repeat (split; [assumption|]).
  fold s in F. unfold AutoProcess.applyForensicMetadata in F.
  split; intros En; rewrite En in F; simpl in F.
  - congruence.
  - pose proof (appendForensicMetadata_size _ _ _ _ F) as [Hw Hh].
    pose proof (appendForensicMetadata_texts _ _ _ _ F) as Ht.
    pose proof (appendForensicMetadata_first _ _ _ _ F) as Hd.
    repeat split; assumption.
Qed.

End Invocation.

Section AcrossHosts.
Context {R : AssetRegistry} {C : Compositor}.

(** X8.  A store that throws and a store without any key give the same
    invocation, apart from the one console message of the former.  Both
    revisions. *)
Theorem X8_failing_store_runs_like_an_empty_store :
  forall (W : Host) (err : Error) (imagePath : jsstring)
         (options : AutoProcess.AutoProcessOptions),
    AutoProcess.processScreenshotWithDefaultBackground
      (W := withStore W (inl err)) imagePath options
    = ConsoleError (lit "Failed to load default background from settings:")
        err
      :: AutoProcess.processScreenshotWithDefaultBackground
           (W := withStore W (inr emptyStore)) imagePath options
    /\
    AutoProcessV1.processScreenshotWithDefaultBackground
      (W := withStore W (inl err)) imagePath
    = ConsoleError (lit "Failed to load default background from settings:")
        err
      :: AutoProcessV1.processScreenshotWithDefaultBackground
           (W := withStore W (inr emptyStore)) imagePath.
Proof.
  intros W err imagePath options. split; reflexivity.
Qed.

(** X9.  The stored background reference matters only for the types
    [image] and [gradient]: for every other resolved type the invocation is
    the same whatever is stored under [defaultBackgroundImage], and the
    registry is not asked to resolve it. *)
Theorem X9_stored_reference_is_ignored_for_other_types :
  forall (W : Host) (store : Store) (reference : option jsstring)
         (imagePath : jsstring) (options : AutoProcess.AutoProcessOptions),
    isImageOrGradient
      (AutoProcess.backgroundType (AutoProcess.readStore store)) = false ->
    AutoProcess.readStore (withBackgroundImage store reference)
    = AutoProcess.readStore store
    /\
    AutoProcess.defaultBgImage (AutoProcess.readStore store)
    = getDefaultBackgroundPath
    /\
    AutoProcess.processScreenshotWithDefaultBackground
      (W := withStore W (inr (withBackgroundImage store reference)))
      imagePath options
    = AutoProcess.processScreenshotWithDefaultBackground
        (W := withStore W (inr store)) imagePath options.
Proof.
  intros W store reference imagePath options T.
  assert (E : AutoProcess.readStore (withBackgroundImage store reference)
              = AutoProcess.readStore store).
  { unfold AutoProcess.readStore, withBackgroundImage in *.
    destruct store as [t c b e tm us]. simpl in *.
    destruct reference as [r|], b as [b|]; simpl;
      rewrite ?T, ?andb_false_r; reflexivity. }
  split; [exact E|]. split.
  - unfold AutoProcess.readStore in *.
    destruct store as [t c b e tm us]. simpl in *.
    destruct b as [b|]; simpl; rewrite ?T, ?andb_false_r; reflexivity.
  - unfold AutoProcess.processScreenshotWithDefaultBackground,
      AutoProcess.loadSettings. simpl loadStore. cbv iota beta.
    rewrite E. reflexivity.
Qed.

(** X10.  An empty string under [defaultCustomColor],
    [defaultBackgroundImage], [forensicTeam] or [forensicUser] counts as a
    missing key: the settings, and with them the invocation, are those of
    the store without these keys. *)
Theorem X10_empty_strings_count_as_missing_keys :
  forall (W : Host) (store : Store) (imagePath : jsstring)
         (options : AutoProcess.AutoProcessOptions),
    AutoProcess.readStore (dropEmptyStrings store)
    = AutoProcess.readStore store
    /\
    AutoProcess.processScreenshotWithDefaultBackground
      (W := withStore W (inr (dropEmptyStrings store))) imagePath options
    = AutoProcess.processScreenshotWithDefaultBackground
        (W := withStore W (inr store)) imagePath options.
Proof.
  intros W store imagePath options.
  assert (E : AutoProcess.readStore (dropEmptyStrings store)
              = AutoProcess.readStore store).
  { unfold AutoProcess.readStore, dropEmptyStrings.
    destruct store as [t c b e tm us]. simpl.
    destruct c as [[|? ?]|], b as [[|? ?]|], tm as [[|? ?]|],
      us as [[|? ?]|]; reflexivity. }
  split; [exact E|].
  unfold AutoProcess.processScreenshotWithDefaultBackground,
    AutoProcess.loadSettings. simpl loadStore. cbv iota beta.
  rewrite E. reflexivity.
Qed.

(** X11.  The clock is read only for a footer without a given timestamp:
    when the caller passes [timestampUtc], or forensic metadata is
    disabled, the invocation is the same at every time of day. *)
Theorem X11_invocation_is_independent_of_the_clock :
  forall (W : Host) (time1 time2 imagePath : jsstring)
         (options : AutoProcess.AutoProcessOptions),
    AutoProcess.timestampUtc options <> None \/
    AutoProcess.forensicEnabled (fst (AutoProcess.loadSettings (W := W)))
    = false ->
    AutoProcess.processScreenshotWithDefaultBackground
      (W := withClock W time1) imagePath options
    = AutoProcess.processScreenshotWithDefaultBackground
        (W := withClock W time2) imagePath options.
Proof.
  intros W time1 time2 imagePath options H.
  destruct W as [cfs ls dec gc enc rf b64 nw].
  unfold AutoProcess.processScreenshotWithDefaultBackground,
    AutoProcess.loadSettings, AutoProcess.img_onload,
    AutoProcess.img_onerror, AutoProcess.bgImage_onload,
    AutoProcess.bgImage_onerror, AutoProcess.compose, toBlobAndSettle,
    toBlob, dataURL, AutoProcess.applyForensicMetadata, withClock in *.
  cbn [convertFileSrc loadStore decode getContext encode readFails base64
       now] in *.
  destruct (ls (lit "settings.json")) as [err|store]; cbn [fst] in H;
    cbv iota beta; (destruct H as [H|H];
      [ destruct (AutoProcess.timestampUtc options);
        [cbv iota beta; reflexivity | congruence]
      | rewrite H; cbn [negb]; cbv iota beta; reflexivity ]).
Qed.

(** X12.  The forensic step changes nothing before the encoder: with or
    without it, and whether or not forensic metadata is enabled, the two
    revisions log the same, start the same decodes and call the compositor
    with the same arguments. *)
Theorem X12_revisions_agree_up_to_the_compositor :
  forall (W : Host) (imagePath : jsstring)
         (options : AutoProcess.AutoProcessOptions),
    filter isUpToCompose
      (AutoProcess.processScreenshotWithDefaultBackground imagePath options)
    = filter isUpToCompose
        (AutoProcessV1.processScreenshotWithDefaultBackground imagePath).
Proof.
  intros W imagePath options.
  rewrite run_unfold, runV1_unfold.
  destruct (settings_agree (W := W)) as (Hl & Ht & Hc & Hb).
  rewrite Hl, !filter_app. f_equal. simpl. f_equal.
  destruct (decode (convertFileSrc imagePath)) as [img|]; [|reflexivity].
  simpl. f_equal.
  unfold AutoProcess.img_onload, AutoProcessV1.img_onload,
    AutoProcess.bgImage_onload, AutoProcessV1.bgImage_onload,
    AutoProcess.imageOptions, AutoProcessV1.imageOptions,
    AutoProcess.plainOptions, AutoProcessV1.plainOptions,
    AutoProcess.compose, AutoProcessV1.compose, toBlobAndSettle, toBlob.
  rewrite <- Ht, <- Hc, <- Hb.
  destruct (isImageOrGradient _); simpl; crunch; reflexivity.
Qed.

End AcrossHosts.

(* ================================================================== *)
(** ** The preferences page and the orchestrator *)

Section Preferences.
Context {R : AssetRegistry}.

(** X13.  The forensic settings the preferences page shows after loading
    a store are the ones the orchestrator takes from the same store:
    enabled flag, team and user agree for every content of the store. *)
Theorem X13_page_and_orchestrator_read_forensics_alike :
  forall (f : SettingsFile) (st : PreferencesPage.State),
    let shown :=
      PreferencesPage.settings
        (fst (PreferencesPage.loadSettings (inr f) st)) in
    let used := AutoProcess.readStore (SettingsJson.orchestratorView f) in
    PreferencesPage.forensicMetadataEnabled shown
    = AutoProcess.forensicEnabled used /\
    PreferencesPage.forensicTeam shown = AutoProcess.forensicTeam used /\
    PreferencesPage.forensicUser shown = AutoProcess.forensicUser used.
Proof.
  intros f st. destruct f as [sd cp fe tm us bt cc bi up]. simpl.
  unfold PreferencesPage.orEmpty, PreferencesPage.orDefault, or_else.
  destruct fe, tm as [[|? ?]|], us as [[|? ?]|]; simpl; auto.
Qed.

(** X14.  Updates keep the page in step with the store: if the page shows
    what loading the store gives, then after an [updateSetting] whose
    store calls all succeed it shows what loading the new store gives. *)
Theorem X14_update_keeps_page_and_store_in_step :
  forall (onSettingsChange : bool) (u : PreferencesPage.Update)
         (st : PreferencesPage.State) (f : SettingsFile),
    PreferencesPage.settings st
    = PreferencesPage.settings
        (fst (PreferencesPage.loadSettings (inr f) st)) ->
    let result :=
      PreferencesPage.updateSetting SettingsJson.noFaults onSettingsChange
        u st f in
    let st' := fst (fst result) in
    let f' := snd (fst result) in
    PreferencesPage.settings st'
    = PreferencesPage.settings
        (fst (PreferencesPage.loadSettings (inr f') st')).
Proof.
  intros cb u st f S. destruct st as [g l]. simpl in S. subst g.
  destruct f as [sd cp fe tm us bt cc bi up].
  destruct u as [v|v|v|v|v]; simpl;
    unfold PreferencesPage.orEmpty, or_else;
    try reflexivity; destruct v; reflexivity.
Qed.

(** X15.  What is set on the preferences page is what the next invocation
    uses: after a successful [updateSetting] of the forensic flag, team or
    user the orchestrator's settings carry the new value, and no update of
    the page changes the background settings the orchestrator reads. *)
Theorem X15_update_reaches_the_orchestrator :
  forall (onSettingsChange : bool) (u : PreferencesPage.Update)
         (st : PreferencesPage.State) (f : SettingsFile),
    let f' :=
      snd (fst (PreferencesPage.updateSetting SettingsJson.noFaults
                  onSettingsChange u st f)) in
    let before := AutoProcess.readStore (SettingsJson.orchestratorView f) in
    let after := AutoProcess.readStore (SettingsJson.orchestratorView f') in
    AutoProcess.backgroundType after = AutoProcess.backgroundType before /\
    AutoProcess.customColor after = AutoProcess.customColor before /\
    AutoProcess.defaultBgImage after = AutoProcess.defaultBgImage before /\
    match u with
    | PreferencesPage.ForensicMetadataEnabled v =>
        AutoProcess.forensicEnabled after = v
    | PreferencesPage.ForensicTeam v => AutoProcess.forensicTeam after = v
    | PreferencesPage.ForensicUser v => AutoProcess.forensicUser after = v
    | _ => after = before
    end.
Proof.
  intros cb u st f. destruct f as [sd cp fe tm us bt cc bi up].
  destruct u as [v|v|v|v|v]; simpl; repeat split;
    try reflexivity; destruct v; reflexivity.
Qed.

(** X16.  [updateSetting] changes the page at once and reports afterwards:
    the page shows the new value whatever the store does; the callback
    fires only when load, set and save all succeeded, and then the store
    holds the value; any throw gives the console message and the error
    toast instead, and a throw of [load] or [set] leaves the store as it
    was. *)
Theorem X16_update_is_optimistic_and_reports_failure :
  forall (faults : Faults) (onSettingsChange : bool)
         (u : PreferencesPage.Update) (st : PreferencesPage.State)
         (f : SettingsFile),
    let result :=
      PreferencesPage.updateSetting faults onSettingsChange u st f in
    let st' := fst (fst result) in
    let f' := snd (fst result) in
    let events := snd result in
    PreferencesPage.settings st'
    = PreferencesPage.spread u (PreferencesPage.settings st)
    /\
    ((faults 0%nat = None /\ faults 1%nat = None /\ faults 2%nat = None /\
      f' = SettingsJson.assign (PreferencesPage.assignment u) f /\
      events = (if onSettingsChange then [SettingsJson.OnSettingsChange]
                else []))
     \/
     (exists err,
         events =
         [SettingsJson.Console
            (lit "Failed to save " ++ PreferencesPage.keyName u ++ lit ":")
            (SettingsJson.Thrown err);
          SettingsJson.ToastError (lit "Failed to save setting")] /\
         (faults 0%nat = Some err \/
          faults 0%nat = None /\ faults 1%nat = Some err /\ f' = f \/
          faults 0%nat = None /\ faults 1%nat = None /\
          faults 2%nat = Some err) /\
         (faults 0%nat = Some err -> f' = f))).
Proof.
  intros faults cb u st f result st' f' events.
  subst st' f' events result. unfold PreferencesPage.updateSetting. simpl.
  destruct (faults 0%nat) as [e0|] eqn:F0; simpl.
  - split; [reflexivity|]. right. exists e0. auto.
  - destruct (faults 1%nat) as [e1|] eqn:F1; simpl.
    + split; [reflexivity|]. right. exists e1.
      split; [reflexivity|]. split; [auto|discriminate].
    + destruct (faults 2%nat) as [e2|] eqn:F2; simpl.
      * split; [reflexivity|]. right. exists e2.
        split; [reflexivity|]. split; [auto|discriminate].
      * split; [reflexivity|]. left. auto.
Qed.

End Preferences.

(* ================================================================== *)
(** ** The background selector and the orchestrator *)

Lemma removeAt_firstn_skipn {A : Type} (index : nat) (l : list A) :
  BackgroundImageSelector.removeAt index l
  = firstn index l ++ skipn (S index) l.
Proof.
  revert index. induction l as [|a l IH]; intros [|i]; simpl;
    try reflexivity.
  rewrite IH. reflexivity.
Qed.

Lemma removeAt_out_of_range {A : Type} (index : nat) (l : list A) :
  (List.length l <= index)%nat ->
  BackgroundImageSelector.removeAt index l = l.
Proof.
  revert index. induction l as [|a l IH]; intros [|i] L; simpl in *;
    try reflexivity; [lia|].
  rewrite IH by lia. reflexivity.
Qed.

Lemma removeAt_length {A : Type} (index : nat) (l : list A) :
  (index < List.length l)%nat ->
  S (List.length (BackgroundImageSelector.removeAt index l)) = List.length l.
Proof.
  revert index. induction l as [|a l IH]; intros [|i] L; simpl in *;
    try lia.
  rewrite IH by lia. reflexivity.
Qed.

Lemma removeAt_last {A : Type} (l : list A) (a : A) :
  BackgroundImageSelector.removeAt (List.length l) (l ++ [a]) = l.
Proof.
  induction l as [|b l IH]; simpl; [reflexivity|].
  rewrite IH. reflexivity.
Qed.

Section Selector.
Context {R : AssetRegistry} {I : BackgroundImageSelector.AssetIds}.

(** X17.  The selector opens on the background the orchestrator will use:
    whether the store answers or throws, the type and the colour the
    selector shows after loading are the ones the orchestrator resolves
    from the same store. *)
Theorem X17_selector_and_orchestrator_read_background_alike :
  forall (W : Host) (read : Error + SettingsFile),
    let shown :=
      fst (BackgroundImageSelector.loadSettings read
             BackgroundImageSelector.initialState) in
    let used :=
      fst (AutoProcess.loadSettings
             (W := withStore W
                     match read with
                     | inl err => inl err
                     | inr f => inr (SettingsJson.orchestratorView f)
                     end)) in
    BackgroundImageSelector.backgroundType shown
    = AutoProcess.backgroundType used /\
    BackgroundImageSelector.customColor shown = AutoProcess.customColor used.
Proof.
  intros W [err|f]; simpl; [split; reflexivity|].
  destruct f as [sd cp fe tm us bt cc bi up]. simpl.
  destruct bt, cc as [[|? ?]|]; split; reflexivity.
Qed.

(** X18.  Choosing a colour reaches the next invocation: after a
    successful [handleCustomColorChange] the orchestrator resolves type
    [custom] with that colour (the default #667eea for an empty one) and
    the default background path; after a successful
    [handleSolidColorSelect] it resolves the chosen type with the colour
    it had, and the stored background reference is cleared for type
    [image] only.  Neither touches the forensic settings. *)
Theorem X18_colour_choice_reaches_the_orchestrator :
  forall (st : BackgroundImageSelector.State) (f : SettingsFile),
    let before := AutoProcess.readStore (SettingsJson.orchestratorView f) in
    (forall color,
        let result :=
          BackgroundImageSelector.handleCustomColorChange
            SettingsJson.noFaults color st f in
        let after :=
          AutoProcess.readStore
            (SettingsJson.orchestratorView (snd (fst result))) in
        AutoProcess.backgroundType after = custom /\
        AutoProcess.customColor after = or_else color (lit "#667eea") /\
        AutoProcess.defaultBgImage after = getDefaultBackgroundPath /\
        AutoProcess.forensicEnabled after = AutoProcess.forensicEnabled before
        /\ AutoProcess.forensicTeam after = AutoProcess.forensicTeam before
        /\ AutoProcess.forensicUser after = AutoProcess.forensicUser before
        /\ snd result
           = [SettingsJson.ToastSuccess (lit "Default background updated")])
    /\
    (forall type,
        let result :=
          BackgroundImageSelector.handleSolidColorSelect
            SettingsJson.noFaults type st f in
        let f' := snd (fst result) in
        let after :=
          AutoProcess.readStore (SettingsJson.orchestratorView f') in
        AutoProcess.backgroundType after = type /\
        AutoProcess.customColor after = AutoProcess.customColor before /\
        SettingsJson.defaultBackgroundImage f'
        = match type with
          | image => None
          | _ => SettingsJson.defaultBackgroundImage f
          end /\
        BackgroundImageSelector.selectedImage (fst (fst result)) = None /\
        AutoProcess.forensicEnabled after = AutoProcess.forensicEnabled before
        /\ AutoProcess.forensicTeam after = AutoProcess.forensicTeam before
        /\ AutoProcess.forensicUser after = AutoProcess.forensicUser before).
Proof.
  intros st f before. subst before.
  destruct f as [sd cp fe tm us bt cc bi up]. split.
  - intros color. simpl. unfold or_else.
    destruct color; repeat split; reflexivity.
  - intros type. destruct type; simpl; repeat split; reflexivity.
Qed.

(** X19.  Choosing an image reaches the next invocation, or nothing
    happens: when the registry gives a non-empty storable value, a
    successful [handleImageSelect] makes the orchestrator resolve type
    [image] with that value's path, and the selector shows the value as
    selected; when it gives none (or an empty one) the selector, the store
    and the parent are left alone and only the error is reported,
    whatever the store would have done. *)
Theorem X19_image_choice_reaches_the_orchestrator_or_nothing_changes :
  forall (imageSrc : jsstring) (st : BackgroundImageSelector.State)
         (f : SettingsFile),
    (forall storableValue,
        BackgroundImageSelector.toStorableValue imageSrc
        = Some storableValue ->
        truthy storableValue = true ->
        let result :=
          BackgroundImageSelector.handleImageSelect SettingsJson.noFaults
            imageSrc st f in
        let after :=
          AutoProcess.readStore
            (SettingsJson.orchestratorView (snd (fst result))) in
        AutoProcess.backgroundType after = image /\
        AutoProcess.defaultBgImage after
        = resolveBackgroundPath storableValue /\
        BackgroundImageSelector.selectedImage (fst (fst result))
        = Some storableValue /\
        BackgroundImageSelector.backgroundType (fst (fst result)) = image /\
        snd result
        = [SettingsJson.OnImageSelect imageSrc;
           SettingsJson.ToastSuccess (lit "Default background updated")])
    /\
    (BackgroundImageSelector.toStorableValue imageSrc = None \/
     BackgroundImageSelector.toStorableValue imageSrc = Some (lit "") ->
     forall faults,
       BackgroundImageSelector.handleImageSelect faults imageSrc st f
       = (st, f,
          [SettingsJson.Console (lit "Cannot store this image path:")
             (SettingsJson.Text imageSrc);
           SettingsJson.ToastError
             (lit "Failed to save background selection")])).
Proof.
  intros imageSrc st f. split.
  - intros v S T. unfold BackgroundImageSelector.handleImageSelect.
    rewrite S, T. destruct f as [sd cp fe tm us bt cc bi up]. simpl.
    rewrite T. simpl. repeat split; reflexivity.
  - intros [S|S] faults; unfold BackgroundImageSelector.handleImageSelect;
      rewrite S; reflexivity.
Qed.

(** X20.  Choosing a gradient stores its id with [mesh-] replaced by
    [gradient-]: for an option named mesh-n the selector shows gradient-n
    as selected, and after a successful click the orchestrator resolves
    type [gradient] with the path of gradient-n. *)
Theorem X20_gradient_choice_reaches_the_orchestrator :
  forall (n name src : jsstring) (st : BackgroundImageSelector.State)
         (f : SettingsFile),
    let option :=
      BackgroundImageSelector.mkGradientOption (lit "mesh-" ++ n) name src in
    let result :=
      BackgroundImageSelector.gradient_onClick SettingsJson.noFaults
        option st f in
    let after :=
      AutoProcess.readStore
        (SettingsJson.orchestratorView (snd (fst result))) in
    BackgroundImageSelector.gradientId option = lit "gradient-" ++ n /\
    BackgroundImageSelector.selectedImage (fst (fst result))
    = Some (lit "gradient-" ++ n) /\
    AutoProcess.backgroundType after = gradient /\
    AutoProcess.defaultBgImage after
    = resolveBackgroundPath (lit "gradient-" ++ n).
Proof.
  intros n name src st f option result after.
  assert (G : BackgroundImageSelector.gradientId option
              = lit "gradient-" ++ n) by reflexivity.
  subst after result. unfold BackgroundImageSelector.gradient_onClick.
  rewrite G. destruct f as [sd cp fe tm us bt cc bi up]. simpl.
  repeat split; reflexivity.
Qed.

End Selector.

(* ================================================================== *)
(** ** Uploaded images *)

(** X21.  Removing an uploaded image takes out exactly the entry at the
    index and keeps the others in order: one entry fewer for an index in
    range, the same list for an index out of range; the new list is what
    the store then holds.  The stored default background is never touched,
    not even when the removed image is the selected one, which the
    selector then no longer shows as selected. *)
Theorem X21_remove_uploaded_takes_out_one_entry :
  forall (index : nat) (st : BackgroundImageSelector.State)
         (f : SettingsFile),
    let result :=
      BackgroundImageSelector.handleRemoveUploaded SettingsJson.noFaults
        index st f in
    let st' := fst (fst result) in
    let f' := snd (fst result) in
    let before := BackgroundImageSelector.uploadedImages st in
    let after := BackgroundImageSelector.uploadedImages st' in
    after = firstn index before ++ skipn (S index) before /\
    ((index < List.length before)%nat ->
     S (List.length after) = List.length before) /\
    ((List.length before <= index)%nat -> after = before) /\
    SettingsJson.uploadedBackgroundImages f' = Some after /\
    SettingsJson.defaultBackgroundImage f'
    = SettingsJson.defaultBackgroundImage f /\
    SettingsJson.defaultBackgroundType f'
    = SettingsJson.defaultBackgroundType f /\
    (forall selected,
        BackgroundImageSelector.selectedImage st = Some selected ->
        nth_error before index = Some (Some selected) ->
        BackgroundImageSelector.selectedImage st' = None).
Proof.
  intros index st f result st' f' before after.
  subst after before f' st' result.
  unfold BackgroundImageSelector.handleRemoveUploaded. simpl.
  split; [apply removeAt_firstn_skipn|].
  split; [apply removeAt_length|].
  split; [apply removeAt_out_of_range|].
  destruct f as [sd cp fe tm us bt cc bi up]. simpl.
  repeat split.
  intros selected S N. rewrite S, N.
  unfold Js.eqb. destruct (list_eq_dec N.eq_dec selected selected);
    [reflexivity|congruence].
Qed.

(** X22.  Upload and removal undo each other: after a successful upload
    of an image file the list is the old one with the new data URL at its
    end, in the selector and in the store, and removing the entry at the
    old length gives the old list back in both. *)
Theorem X22_upload_then_remove_restores_the_list :
  forall (type dataUrl : jsstring) (st : BackgroundImageSelector.State)
         (f : SettingsFile),
    startsWith (lit "image/") type = true ->
    let old := BackgroundImageSelector.uploadedImages st in
    let uploaded :=
      BackgroundImageSelector.handleFileUpload SettingsJson.noFaults
        (Some (BackgroundImageSelector.mkFile type (Some dataUrl))) st f in
    let removed :=
      BackgroundImageSelector.handleRemoveUploaded SettingsJson.noFaults
        (List.length old) (fst (fst uploaded)) (snd (fst uploaded)) in
    BackgroundImageSelector.uploadedImages (fst (fst uploaded))
    = old ++ [Some dataUrl] /\
    SettingsJson.uploadedBackgroundImages (snd (fst uploaded))
    = Some (old ++ [Some dataUrl]) /\
    BackgroundImageSelector.uploadedImages (fst (fst removed)) = old /\
    SettingsJson.uploadedBackgroundImages (snd (fst removed)) = Some old.
Proof.
  intros type dataUrl st f T old uploaded removed.
  subst removed uploaded old.
  unfold BackgroundImageSelector.handleFileUpload.
  cbn [BackgroundImageSelector.type BackgroundImageSelector.contents].
  rewrite T. simpl.
  destruct f as [sd cp fe tm us bt cc bi up]. simpl.
  rewrite removeAt_last. repeat split; reflexivity.
Qed.

(** X23.  What an upload does at its edges: without a file nothing
    happens; a file whose type does not start with image/ is refused with
    a toast and nothing else; and a read that fails is reported but, as
    [loadend] follows [error], still appends an entry (a [null] one),
    stores the list and announces success. *)
Theorem X23_upload_edge_cases :
  forall (faults : Faults) (st : BackgroundImageSelector.State)
         (f : SettingsFile),
    BackgroundImageSelector.handleFileUpload faults None st f = (st, f, [])
    /\
    (forall file,
        startsWith (lit "image/") (BackgroundImageSelector.type file)
        = false ->
        BackgroundImageSelector.handleFileUpload faults (Some file) st f
        = (st, f,
           [SettingsJson.ToastError (lit "Please select an image file")]))
    /\
    (forall type,
        startsWith (lit "image/") type = true ->
        let result :=
          BackgroundImageSelector.handleFileUpload SettingsJson.noFaults
            (Some (BackgroundImageSelector.mkFile type None)) st f in
        BackgroundImageSelector.uploadedImages (fst (fst result))
        = BackgroundImageSelector.uploadedImages st ++ [None] /\
        SettingsJson.uploadedBackgroundImages (snd (fst result))
        = Some (BackgroundImageSelector.uploadedImages st ++ [None]) /\
        snd result
        = [SettingsJson.ResetFileInput;
           SettingsJson.ToastError (lit "Failed to read image file");
           SettingsJson.ToastSuccess (lit "Image uploaded successfully")]).
Proof.
  intros faults st f. split; [reflexivity|]. split.
  - intros file T. unfold BackgroundImageSelector.handleFileUpload.
    rewrite T. reflexivity.
  - intros type T. unfold BackgroundImageSelector.handleFileUpload.
    cbn [BackgroundImageSelector.type BackgroundImageSelector.contents].
    rewrite T. simpl. destruct f as [sd cp fe tm us bt cc bi up]. simpl.
    repeat split; reflexivity.
Qed.

(* ================================================================== *)
(** ** These statements on the test benches *)

Lemma X1_label_ignores_surrounding_white_space_witness :
  AutoProcess.buildUserLabel ([32%N; 9%N] ++ lit "ops" ++ [10%N])
    ([160%N] ++ lit "amy" ++ [])
  = AutoProcess.buildUserLabel (lit "ops") (lit "amy").
Proof.
  apply X1_label_ignores_surrounding_white_space; reflexivity.
Defined.

Lemma X2_label_components_are_never_empty_witness :
  AutoProcess.buildUserLabel [32%N; 32%N] [9%N] = lit "unknown/unknown".
Proof.
  apply (proj2 (X2_label_components_are_never_empty [32%N; 32%N] [9%N]));
    reflexivity.
Defined.

Lemma X3_footer_stays_below_the_composite_witness :
  exists out,
    appendForensicMetadata (fun _ => true) Bench.composite
      (mkOptions (lit "2024-01-01T00:00:00Z") (lit "security/unknown"))
    = inr out /\
    exists (bandColour lineColour textColour fnt text1 text2 : jsstring)
           (seam : Q) (y1 y2 : Z),
      painted out =
      [DrawCanvas Bench.composite 0 0 true (lit "high");
       FillRect 0 (height Bench.composite) (width out)
         (height out - height Bench.composite) bandColour;
       Stroke [(0%Q, seam); (inject_Z (width out), seam)] lineColour 1;
       FillText text1 24 y1 textColour (lit "top") fnt;
       FillText text2 24 y2 textColour (lit "top") fnt]
      /\
      (seam - (1 # 2) == inject_Z (height Bench.composite))%Q /\
      (seam + (1 # 2) == inject_Z (height Bench.composite) + 1)%Q /\
      height Bench.composite + 12 <= y1 /\
      y1 + lineHeight <= y2 /\
      y2 + lineHeight <= height out - 12.
Proof.
  eexists. split; [reflexivity|].
  exact (X3_footer_stays_below_the_composite
           (fun _ => true) Bench.composite _
           (mkOptions (lit "2024-01-01T00:00:00Z") (lit "security/unknown"))
           eq_refl).
Defined.

Lemma X4_promise_settles_unless_a_call_outside_try_throws_witness :
  let W := Bench.host
             (inr (Bench.storeWith custom None false (lit "") (lit "")))
             false in
  settled
    (executor (W := W) (R := Bench.registry) (C := Bench.compositor)
       false true (lit "shot.png") Bench.options)
  = Pending /\
  attempts (isSetSrc SourceImg)
    (executor (W := W) (R := Bench.registry) (C := Bench.compositor)
       false false (lit "shot.png") Bench.options)
  = 1%nat.
Proof.
  intros W. split.
  - apply (proj1 (X4_promise_settles_unless_a_call_outside_try_throws
                    (W := W) (R := Bench.registry) (C := Bench.compositor)
                    false true (lit "shot.png") Bench.options)).
    right. reflexivity.
  - apply (proj2 (proj2 (proj2
             (X4_promise_settles_unless_a_call_outside_try_throws
                (W := W) (R := Bench.registry) (C := Bench.compositor)
                false false (lit "shot.png") Bench.options))));
      reflexivity.
Defined.

Lemma X5_nothing_runs_after_a_failed_stage_witness :
  let W := Bench.host
             (inr (Bench.storeWith image None false (lit "") (lit "")))
             false in
  (attempts (isSetSrc BackgroundImg)
     (AutoProcess.processScreenshotWithDefaultBackground
        (W := W) (R := Bench.registry) (C := Bench.compositor)
        (lit "missing.png") Bench.options) = 0 /\
   attempts isCompose
     (AutoProcess.processScreenshotWithDefaultBackground
        (W := W) (R := Bench.registry) (C := Bench.compositor)
        (lit "missing.png") Bench.options) = 0 /\
   attempts isToBlob
     (AutoProcess.processScreenshotWithDefaultBackground
        (W := W) (R := Bench.registry) (C := Bench.compositor)
        (lit "missing.png") Bench.options) = 0 /\
   attempts isRead
     (AutoProcess.processScreenshotWithDefaultBackground
        (W := W) (R := Bench.registry) (C := Bench.compositor)
        (lit "missing.png") Bench.options) = 0)%nat.
Proof.
  intros W.
  apply (proj1 (X5_nothing_runs_after_a_failed_stage
                  (W := W) (R := Bench.registry) (C := Bench.compositor)
                  (lit "missing.png") Bench.options)).
  vm_compute. here.
Defined.

Lemma X6_background_reaches_the_compositor_by_type_witness :
  let W := Bench.host
             (inr (Bench.storeWith image None false (lit "") (lit "")))
             false in
  let s := fst (AutoProcess.loadSettings (W := W) (R := Bench.registry)) in
  CanvasUtils.backgroundType
    (AutoProcess.imageOptions s Bench.shot Bench.wallpaper)
  = AutoProcess.backgroundType s.
Proof.
  intros W s.
  refine (proj1 (proj2 (X6_background_reaches_the_compositor_by_type
                          (W := W) (R := Bench.registry)
                          (C := Bench.compositor)
                          (lit "shot.png") Bench.options
                          (AutoProcess.imageOptions s Bench.shot
                             Bench.wallpaper) _))).
  vm_compute. here.
Defined.

Lemma X7_fulfilled_value_encodes_composite_and_footer_witness :
  let W := Bench.host
             (inr (Bench.storeWith custom None true (lit "security")
                     (lit "")))
             false in
  exists opts composite outputCanvas bytes,
    In (CreateHighQualityCanvas opts)
      (AutoProcess.processScreenshotWithDefaultBackground
         (W := W) (R := Bench.registry) (C := Bench.compositor)
         (lit "shot.png") Bench.options) /\
    createHighQualityCanvas (Compositor := Bench.compositor) opts
    = inr composite /\
    encode (Host := W) outputCanvas (lit "image/png") 1 = Some bytes /\
    Some (lit "data:image/png;base64," ++ [1000%N; 864%N])
    = Some (lit "data:image/png;base64," ++ base64 (Host := W) bytes) /\
    (true = false -> outputCanvas = composite) /\
    (true = true ->
     width outputCanvas = width composite /\
     height outputCanvas = height composite + 64 /\
     hd_error (painted outputCanvas)
     = Some (DrawCanvas composite 0 0 true (lit "high")) /\
     texts outputCanvas =
     footerLines (height composite) (lit "2024-01-01T00:00:00Z")
       (lit "User: " ++ lit "security/unknown")).
Proof.
  intros W.
  exact (X7_fulfilled_value_encodes_composite_and_footer
           (W := W) (R := Bench.registry) (C := Bench.compositor)
           (lit "shot.png") Bench.options
           (Some (lit "data:image/png;base64," ++ [1000%N; 864%N]))
           eq_refl).
Defined.

Lemma X9_stored_reference_is_ignored_for_other_types_witness :
  let W := Bench.host (inl (mkError (lit "unused"))) false in
  let store := Bench.storeWith custom None false (lit "") (lit "") in
  AutoProcess.processScreenshotWithDefaultBackground
    (W := withStore W
            (inr (withBackgroundImage store (Some (lit "mesh-1")))))
    (R := Bench.registry) (C := Bench.compositor)
    (lit "shot.png") Bench.options
  = AutoProcess.processScreenshotWithDefaultBackground
      (W := withStore W (inr store))
      (R := Bench.registry) (C := Bench.compositor)
      (lit "shot.png") Bench.options.
Proof.
  intros W store.
  exact (proj2 (proj2 (X9_stored_reference_is_ignored_for_other_types
                         (R := Bench.registry) (C := Bench.compositor)
                         W store (Some (lit "mesh-1")) (lit "shot.png")
                         Bench.options eq_refl))).
Defined.

Lemma X11_invocation_is_independent_of_the_clock_witness :
  let W := Bench.host
             (inr (Bench.storeWith custom None true (lit "ops") (lit "amy")))
             false in
  AutoProcess.processScreenshotWithDefaultBackground
    (W := withClock W (lit "2024-01-01T00:00:00Z"))
    (R := Bench.registry) (C := Bench.compositor)
    (lit "shot.png") Bench.options
  = AutoProcess.processScreenshotWithDefaultBackground
      (W := withClock W (lit "2031-05-05T12:00:00Z"))
      (R := Bench.registry) (C := Bench.compositor)
      (lit "shot.png") Bench.options.
Proof.
  intros W.
  apply (X11_invocation_is_independent_of_the_clock
           (R := Bench.registry) (C := Bench.compositor) W).
  left. simpl. discriminate.
Defined.

Lemma X14_update_keeps_page_and_store_in_step_witness :
  let result :=
    PreferencesPage.updateSetting SettingsJson.noFaults true
      (PreferencesPage.ForensicTeam (lit "")) Desk.page Desk.file in
  PreferencesPage.settings (fst (fst result))
  = PreferencesPage.settings
      (fst (PreferencesPage.loadSettings (inr (snd (fst result)))
              (fst (fst result)))).
Proof.
  exact (X14_update_keeps_page_and_store_in_step true
           (PreferencesPage.ForensicTeam (lit "")) Desk.page Desk.file
           eq_refl).
Defined.

Lemma X16_update_is_optimistic_and_reports_failure_witness :
  let result :=
    PreferencesPage.updateSetting (Desk.faultAt 1) true
      (PreferencesPage.CopyToClipboard false) Desk.page Desk.file in
  PreferencesPage.copyToClipboard
    (PreferencesPage.settings (fst (fst result))) = false /\
  snd (fst result) = Desk.file.
Proof.
  intros result.
  destruct (X16_update_is_optimistic_and_reports_failure
              (Desk.faultAt 1) true (PreferencesPage.CopyToClipboard false)
              Desk.page Desk.file)
    as [Hs [(_ & F1 & _)|(err & _ & [F0|[(_ & _ & Hf)|(_ & F1 & _)]] & _)]].
  - discriminate F1.
  - discriminate F0.
  - split; [|exact Hf]. fold result in Hs. rewrite Hs. reflexivity.
  - discriminate F1.
Defined.

Lemma X19_image_choice_reaches_the_orchestrator_or_nothing_changes_witness :
  let result :=
    BackgroundImageSelector.handleImageSelect (H := Desk.assetIds)
      SettingsJson.noFaults (lit "/bg/mesh-1.jpg") Desk.selector Desk.file in
  AutoProcess.defaultBgImage
    (AutoProcess.readStore (R := Bench.registry)
       (SettingsJson.orchestratorView (snd (fst result))))
  = lit "/bg/mesh-1.jpg".
Proof.
  intros result.
  exact (proj1 (proj2
           (proj1 (X19_image_choice_reaches_the_orchestrator_or_nothing_changes
                     (R := Bench.registry) (I := Desk.assetIds)
                     (lit "/bg/mesh-1.jpg") Desk.selector Desk.file)
              (lit "mesh-1") eq_refl eq_refl))).
Defined.

Lemma X21_remove_uploaded_takes_out_one_entry_witness :
  let result :=
    BackgroundImageSelector.handleRemoveUploaded SettingsJson.noFaults 0
      Desk.selector Desk.file in
  S (List.length (BackgroundImageSelector.uploadedImages (fst (fst result))))
  = List.length (BackgroundImageSelector.uploadedImages Desk.selector).
Proof.
  intros result.
  apply (proj1 (proj2 (X21_remove_uploaded_takes_out_one_entry
                         0 Desk.selector Desk.file))).
  vm_compute. lia.
Defined.

Lemma X22_upload_then_remove_restores_the_list_witness :
  let uploaded :=
    BackgroundImageSelector.handleFileUpload SettingsJson.noFaults
      (Some Desk.png) Desk.selector Desk.file in
  BackgroundImageSelector.uploadedImages
    (fst (fst (BackgroundImageSelector.handleRemoveUploaded
                 SettingsJson.noFaults 2 (fst (fst uploaded))
                 (snd (fst uploaded)))))
  = BackgroundImageSelector.uploadedImages Desk.selector.
Proof.
  intros uploaded.
  exact (proj1 (proj2 (proj2
           (X22_upload_then_remove_restores_the_list
              (lit "image/png") (lit "data:image/png;base64,CCCC")
              Desk.selector Desk.file eq_refl)))).
Defined.

Lemma X23_upload_edge_cases_witness :
  BackgroundImageSelector.handleFileUpload SettingsJson.noFaults
    (Some (BackgroundImageSelector.mkFile (lit "text/plain")
             (Some (lit "data:text/plain;base64,AAAA"))))
    Desk.selector Desk.file
  = (Desk.selector, Desk.file,
     [SettingsJson.ToastError (lit "Please select an image file")]).
Proof.
  exact (proj1 (proj2 (X23_upload_edge_cases SettingsJson.noFaults
                         Desk.selector Desk.file))
           (BackgroundImageSelector.mkFile (lit "text/plain")
              (Some (lit "data:text/plain;base64,AAAA")))
           eq_refl).
Defined.
